(** * lst-operations: the reconciliation tools of [src/tools/tools.js]

    A shallow embedding of the two spreadsheet reconcilers ([runApproved],
    [runRemit]) and of the string normalisers they are built on, together
    with the JavaScript built-ins they call.

    Conventions.
    - A JavaScript string is a sequence of code units.  We use [string];
      one [ascii] stands for one code unit in the range 0-255.
    - A JavaScript number is an IEEE 754 binary64 value: [spec_float] with
      [prec = 53] and [emax = 1024].
    - A row produced by the table reader is an object used as a map from
      column names to cells: [gmap string value].
    - [throw], the status line and the workbook download are effects of a
      small state-and-error monad over the page state. *)

From Stdlib Require Import ZArith Ascii String Bool Lia DecimalString.
From Stdlib Require Import Floats.SpecFloat.
From stdpp Require Import gmap strings list fin_maps.

Local Open Scope Z_scope.

(** ** JavaScript strings *)

Module JS.

(** WhiteSpace and LineTerminator code units (ECMAScript 12.2, 12.3) that
    fit in one byte: TAB, LF, VT, FF, CR, SP and NBSP. *)
Definition isWhiteSpace (c : ascii) : bool :=
  bool_decide (N_of_ascii c ∈ [9; 10; 11; 12; 13; 32; 160]%N).

(** [String.prototype.trimStart]. *)
Fixpoint trimStart (s : string) : string :=
  match s with
  | EmptyString => EmptyString
  | String c s' => if isWhiteSpace c then trimStart s' else s
  end.

(** [String.prototype.trimEnd]. *)
Fixpoint trimEnd (s : string) : string :=
  match s with
  | EmptyString => EmptyString
  | String c s' =>
      match trimEnd s' with
      | EmptyString => if isWhiteSpace c then EmptyString else String c EmptyString
      | r => String c r
      end
  end.

(** [String.prototype.trim]. *)
Definition trim (s : string) : string := trimEnd (trimStart s).

(** [s.endsWith(suffix)]. *)
Definition endsWith (s suffix : string) : bool :=
  let l := String.length s in
  let k := String.length suffix in
  (k <=? l)%nat && String.eqb (String.substring (l - k) k s) suffix.

(** [s.slice(start, end)], negative indices counting from the end. *)
Definition slice (s : string) (start end_ : Z) : string :=
  let len := Z.of_nat (String.length s) in
  let from := if start <? 0 then Z.max (len + start) 0 else Z.min start len in
  let to := if end_ <? 0 then Z.max (len + end_) 0 else Z.min end_ len in
  String.substring (Z.to_nat from) (Z.to_nat (Z.max (to - from) 0)) s.

(** [s.replaceAll(pattern, replacement)] for a pattern of one code unit,
    which is how both call sites use it. *)
Fixpoint replaceAll (s : string) (pattern : ascii) (replacement : string) : string :=
  match s with
  | EmptyString => EmptyString
  | String c s' =>
      if Ascii.eqb c pattern
      then replacement +:+ replaceAll s' pattern replacement
      else String c (replaceAll s' pattern replacement)
  end.

(** [s.split(separator)] for a separator of one code unit.  The result is
    never empty: [split "" sep = [""]]. *)
Fixpoint split (s : string) (separator : ascii) : list string :=
  match s with
  | EmptyString => [EmptyString]
  | String c s' =>
      if Ascii.eqb c separator then EmptyString :: split s' separator
      else match split s' separator with
           | hd :: tl => String c hd :: tl
           | [] => [String c EmptyString]
           end
  end.

(** ** JavaScript numbers *)

Definition prec : Z := 53.
Definition emax : Z := 1024.

Definition NaN : spec_float := S754_nan.
Definition posZero : spec_float := S754_zero false.

(** The [+] of two numbers. *)
Definition add (x y : spec_float) : spec_float := SFadd prec emax x y.

(** Structural equality of number values (the same value, with [+0] and [-0]
    kept apart). *)
Definition sameValue (x y : spec_float) : bool :=
  match x, y with
  | S754_zero a, S754_zero b => Bool.eqb a b
  | S754_infinity a, S754_infinity b => Bool.eqb a b
  | S754_nan, S754_nan => true
  | S754_finite a m e, S754_finite b n f => Bool.eqb a b && (m =? n)%positive && (e =? f)
  | _, _ => false
  end.

(** The number value of the real [m * 10 ^ e10] ([m >= 0]), negated when
    [neg]: rounded to nearest, ties to even; a zero keeps the sign. *)
Definition roundDecimal (neg : bool) (m e10 : Z) : spec_float :=
  match m with
  | Zpos p =>
      if 0 <=? e10
      then binary_normalize prec emax (cond_Zopp neg (Zpos p * 10 ^ e10)) 0 neg
      else SFdiv prec emax (S754_finite neg p 0)
                           (S754_finite false (Z.to_pos (10 ^ (- e10))) 0)
  | _ => S754_zero neg
  end.

(** The value of a digit character in the given radix, if it is one. *)
Definition digitOf (radix : Z) (c : ascii) : option Z :=
  let n := Z.of_N (N_of_ascii c) in
  let d := if (48 <=? n) && (n <=? 57) then n - 48
           else if (97 <=? n) && (n <=? 102) then n - 87
           else if (65 <=? n) && (n <=? 70) then n - 55
           else radix in
  if d <? radix then Some d else None.

(** The longest prefix of digits, and what follows it. *)
Fixpoint spanDigits (radix : Z) (s : string) : list Z * string :=
  match s with
  | EmptyString => ([], EmptyString)
  | String c s' =>
      match digitOf radix c with
      | Some d => let '(ds, r) := spanDigits radix s' in (d :: ds, r)
      | None => ([], s)
      end
  end.

Definition digitsValue (radix : Z) (ds : list Z) : Z :=
  foldl (fun a d => a * radix + d) 0 ds.

(** ExponentPart_opt followed by the end of the string: the exponent. *)
Definition parseExponent (s : string) : option Z :=
  match s with
  | EmptyString => Some 0
  | String c s' =>
      if bool_decide (c = "e"%char \/ c = "E"%char) then
        let '(neg, s'') :=
          match s' with
          | String "+" t => (false, t)
          | String "-" t => (true, t)
          | _ => (false, s')
          end in
        match spanDigits 10 s'' with
        | ((_ :: _) as ds, EmptyString) => Some (cond_Zopp neg (digitsValue 10 ds))
        | _ => None
        end
      else None
  end.

(** StrUnsignedDecimalLiteral, with the sign read before it. *)
Definition parseUnsignedDecimal (neg : bool) (s : string) : spec_float :=
  if String.eqb s "Infinity" then S754_infinity neg else
  let '(ip, r) := spanDigits 10 s in
  let '(fp, r') :=
    match r with
    | String "." t => spanDigits 10 t
    | _ => ([], r)
    end in
  match ip ++ fp with
  | [] => NaN
  | ds =>
      match parseExponent r' with
      | Some e => roundDecimal neg (digitsValue 10 ds) (e - Z.of_nat (length fp))
      | None => NaN
      end
  end.

(** NonDecimalIntegerLiteral: the digits after [0x], [0o] or [0b]. *)
Definition parseRadix (radix : Z) (s : string) : spec_float :=
  match spanDigits radix s with
  | ((_ :: _) as ds, EmptyString) => roundDecimal false (digitsValue radix ds) 0
  | _ => NaN
  end.

(** The radix and the digits of a string that starts with [0x], [0o] or
    [0b], in either case. *)
Definition radixPrefix (s : string) : option (Z * string) :=
  match s with
  | String "0" (String c t) =>
      if bool_decide (c = "x"%char \/ c = "X"%char) then Some (16, t)
      else if bool_decide (c = "o"%char \/ c = "O"%char) then Some (8, t)
      else if bool_decide (c = "b"%char \/ c = "B"%char) then Some (2, t)
      else None
  | _ => None
  end.

(** StringToNumber (ECMAScript 7.1.4.1.1). *)
Definition StringToNumber (s : string) : spec_float :=
  match trim s with
  | EmptyString => posZero
  | String c t as lit =>
      match radixPrefix lit with
      | Some (radix, digits) => parseRadix radix digits
      | None =>
          if Ascii.eqb c "+" then parseUnsignedDecimal false t
          else if Ascii.eqb c "-" then parseUnsignedDecimal true t
          else parseUnsignedDecimal false lit
      end
  end.

(** The number value of an integer. *)
Definition ofZ (n : Z) : spec_float := binary_normalize prec emax n 0 false.

(** *** Number::toString (ECMAScript 6.1.6.1.20), radix 10 *)

Definition decimal (n : Z) : string :=
  NilZero.string_of_uint (N.to_uint (Z.to_N n)).

Fixpoint zeros (n : nat) : string :=
  match n with
  | O => EmptyString
  | S n' => String "0" (zeros n')
  end.

(** [m * 2 ^ e / 10 ^ p] as a fraction of two positive integers. *)
Definition scaled (m : positive) (e p : Z) : Z * Z :=
  (Zpos m * 2 ^ Z.max e 0 * 10 ^ Z.max (- p) 0,
   2 ^ Z.max (- e) 0 * 10 ^ Z.max p 0).

(** An integer [s] of exactly [k] digits for which [s * 10 ^ (n - k)] has
    the number value [S754_finite false m e], the closest one when there
    are two. *)
Definition candidate (m : positive) (e k n : Z) : option Z :=
  let p := n - k in
  let '(num, den) := scaled m e p in
  let f := num / den in
  let r := num - f * den in
  let ok s := (10 ^ (k - 1) <=? s) && (s <? 10 ^ k)
              && sameValue (roundDecimal false s p) (S754_finite false m e) in
  match ok f, ok (f + 1) with
  | true, true =>
      Some (if 2 * r <? den then f
            else if den <? 2 * r then f + 1
            else if Z.even f then f else f + 1)
  | true, false => Some f
  | false, true => Some (f + 1)
  | false, false => None
  end.

(** [|s * 10 ^ p - m * 2 ^ e|], multiplied by [2 ^ a * 10 ^ b]; an integer
    when [a], [e + a] and [p + b] are not negative. *)
Definition distance (m : positive) (e a b s p : Z) : Z :=
  Z.abs (s * 10 ^ (p + b) * 2 ^ a - Zpos m * 2 ^ (e + a) * 10 ^ b).

(** The integers [s] and [n] of the algorithm: [k] as small as possible
    and, where several [s * 10 ^ (n - k)] of [k] digits have the number
    value, the one closest to it (the even [s] when two are as close);
    [k] never exceeds 17. *)
Definition shortestDigits (m : positive) (e : Z) : Z * Z :=
  let est := (Z.log2 (Zpos m) + e) * 1233 / 4096 in
  let a := Z.max (- e) 0 in
  let b := Z.max (18 - est) 0 in
  let closer (k : Z) (x y : Z * Z) :=
    let dx := distance m e a b (fst x) (snd x - k) in
    let dy := distance m e a b (fst y) (snd y - k) in
    if dx <? dy then x
    else if dy <? dx then y
    else if Z.even (fst x) then x else y in
  let found :=
    k ← seqZ 1 17;
    match (n ← seqZ (est - 1) 6;
           match candidate m e k n with
           | Some s => [(s, n)]
           | None => []
           end) with
    | [] => []
    | sn :: rest => [foldl (closer k) sn rest]
    end in
  match found with
  | sn :: _ => sn
  | [] => (0, 1)
  end.

Definition formatDigits (s n : Z) : string :=
  let ds := decimal s in
  let k := Z.of_nat (String.length ds) in
  if (k <=? n) && (n <=? 21) then ds +:+ zeros (Z.to_nat (n - k))
  else if (0 <? n) && (n <=? 21) then
    String.substring 0 (Z.to_nat n) ds +:+ "." +:+
    String.substring (Z.to_nat n) (Z.to_nat (k - n)) ds
  else if (-6 <? n) && (n <=? 0) then "0." +:+ zeros (Z.to_nat (- n)) +:+ ds
  else
    let e := n - 1 in
    let es := "e" +:+ (if e <? 0 then "-" else "+") +:+ decimal (Z.abs e) in
    if k =? 1 then ds +:+ es
    else String.substring 0 1 ds +:+ "." +:+
         String.substring 1 (Z.to_nat (k - 1)) ds +:+ es.

Definition NumberToString (x : spec_float) : string :=
  match x with
  | S754_nan => "NaN"
  | S754_zero _ => "0"
  | S754_infinity s => if s then "-Infinity" else "Infinity"
  | S754_finite s m e =>
      match binary_round prec emax false m e with
      | S754_finite _ m' e' =>
          let '(d, n) := shortestDigits m' e' in
          (if s then "-" else "") +:+ formatDigits d n
      | S754_infinity _ => if s then "-Infinity" else "Infinity"
      | _ => "0"
      end
  end.

(** ** JavaScript values *)

(** The cells the table reader produces, and what a missing key reads as. *)
Inductive value :=
  | VUndefined
  | VNull
  | VBoolean (b : bool)
  | VNumber (x : spec_float)
  | VString (s : string).

#[global] Instance spec_float_eq_dec : EqDecision spec_float.
Proof. solve_decision. Defined.

#[global] Instance value_eq_dec : EqDecision value.
Proof. solve_decision. Defined.

(** [String(x)]. *)
Definition ToString (x : value) : string :=
  match x with
  | VUndefined => "undefined"
  | VNull => "null"
  | VBoolean b => if b then "true" else "false"
  | VNumber n => NumberToString n
  | VString s => s
  end.

(** [Number(x)]. *)
Definition ToNumber (x : value) : spec_float :=
  match x with
  | VUndefined => NaN
  | VNull => posZero
  | VBoolean b => if b then ofZ 1 else posZero
  | VNumber n => n
  | VString s => StringToNumber s
  end.

(** [Boolean(x)], the truthiness [!x], [x || y] and [filter(Boolean)] use. *)
Definition ToBoolean (x : value) : bool :=
  match x with
  | VUndefined | VNull => false
  | VBoolean b => b
  | VNumber (S754_zero _) | VNumber S754_nan => false
  | VNumber _ => true
  | VString s => negb (String.eqb s "")
  end.

(** A row object: [c in r] and [r[c]]. *)
Definition row := gmap string value.

Definition has (r : row) (c : string) : bool := bool_decide (is_Some (r !! c)).

Definition get (r : row) (c : string) : value := default VUndefined (r !! c).

(** [new Map(entries)]: the entries are set in order, so the last entry
    of a key is the one that stays. *)
Definition newMap (entries : list (string * string)) : gmap string string :=
  foldl (fun m kv => <[kv.1 := kv.2]> m) ∅ entries.

(** [new Set(items)]. *)
Definition newSet (items : list string) : gset string := list_to_set items.

End JS.

Import JS.

(** ** The page: status line, thrown errors and downloads *)

(** The three texts [log] is called with inside the two tools:
    "Reading files...", "Generating Excel..." and "Done. Download started."
    (the source spells them with an ellipsis and a check mark). *)
Inductive statusText := ReadingFiles | GeneratingExcel | DoneDownloadStarted.

(** The object literals the tools build for their output sheets. *)
Record summaryRow := { Metric : string; Value : nat }.

Record statusRow := {
  sInvoice : value;      (* "Invoice#" *)
  sTickets : value;      (* "Tickets" *)
  sDate : value;         (* "Date" *)
  sName : value;         (* "Name" *)
  sBalanceDue : value;   (* "Balance Due" *)
  Status : string        (* "Status" *)
}.

Record remitRow := {
  Reference : string;               (* "Reference" *)
  NetAmount : value;                (* "Net Amount" *)
  Customer : string;                (* "Customer" *)
  PioneerNaturalResources : value;  (* "PioneerNaturalResources" *)
  XTO_ : value                      (* "XTO" *)
}.

Inductive sheetRows :=
  | SummaryRows (rows : list summaryRow)
  | StatusRows (rows : list statusRow)
  | RemitRows (rows : list remitRow).

Record workbook := { sheets : list (string * sheetRows); filename : string }.

Record page := {
  textContent : option statusText;  (* the text of [logEl] *)
  downloads : list workbook         (* the files written so far *)
}.

(** A computation either returns or throws [new Error(message)], and
    leaves a page behind. *)
Definition M (A : Type) : Type := page -> (string + A) * page.

Definition throw {A} (message : string) : M A := fun w => (inl message, w).

#[global] Instance M_ret : MRet M := fun A a w => (inr a, w).

#[global] Instance M_bind : MBind M := fun A B k m w =>
  match m w with
  | (inr a, w') => k a w'
  | (inl e, w') => (inl e, w')
  end.

(** [for (const x of xs) body]. *)
Fixpoint forOf {A} (xs : list A) (body : A -> M unit) : M unit :=
  match xs with
  | [] => mret tt
  | x :: xs' => body x ;; forOf xs' body
  end.

(** ** src/tools/tools.js *)

(** [log(logEl, msg)]: a run writes to one status line. *)
Definition log (msg : statusText) : M unit :=
  fun w => (inr tt, {| textContent := Some msg; downloads := downloads w |}).

Definition normalizeTicket (x : value) : string :=
  if bool_decide (x = VNull \/ x = VUndefined) then "" else
  let s := trim (ToString x) in
  let s := if endsWith s ".0" then slice s 0 (-2) else s in
  replaceAll (replaceAll s "," "") " " "".

Definition splitAxonTickets (cell : value) : list string :=
  if bool_decide (cell = VNull \/ cell = VUndefined) then [] else
  let s := trim (ToString cell) in
  if negb (ToBoolean (VString s)) then [] else
  filter (fun p => ToBoolean (VString p)) (map trim (split s ",")).

Definition normalizeInvoice (x : value) : string :=
  if bool_decide (x = VNull \/ x = VUndefined) then "" else
  let s := trim (ToString x) in
  let s := if endsWith s ".0" then slice s 0 (-2) else s in
  replaceAll (replaceAll s "," "") " " "".

(** The table reader hands over the rows the spreadsheet codec decodes
    from the first sheet; a file is given by those rows. *)
Definition file := list row.

Definition readTable (f : file) : M (list row) := mret f.

(** The workbook writer: the file is saved by the browser. *)
Definition downloadWorkbook (sheets : list (string * sheetRows)) (filename : string) : M unit :=
  fun w => (inr tt, {| textContent := textContent w;
                       downloads := downloads w ++ [ {| sheets := sheets; filename := filename |} ] |}).

(** [!rows.length || !(c in rows[0])]. *)
Definition lacks (rows : list row) (c : string) : bool :=
  match rows with
  | [] => true
  | r0 :: _ => negb (has r0 c)
  end.

(** *** Approved tool *)

(** [oiSet], the set built from the OpenInvoice rows. *)
Definition oiSet (oiRows : list row) : gset string :=
  newSet (filter (fun t => ToBoolean (VString t))
                 (map (fun r => normalizeTicket (get r "Ticket")) oiRows)).

(** The constants [normalized], [total] and [matched] of the body of
    [axonRows.map(r => ...)], for the row [r] and the set [oiSet]. *)
Definition normalized (r : row) : list string :=
  let ticketList := splitAxonTickets (get r "Tickets") in
  filter (fun t => ToBoolean (VString t))
         (map (fun t => normalizeTicket (VString t)) ticketList).

Definition total (r : row) : nat := length (normalized r).

Definition matched (oiSet : gset string) (r : row) : nat :=
  length (filter (fun t => t ∈ oiSet) (normalized r)).

(** The body of [axonRows.map(r => ...)]. *)
Definition approvedRow (oiSet : gset string) (r : row) : statusRow :=
  let total := total r in
  let matched := matched oiSet r in
  let status := "Not Ready" in
  let status :=
    if (0 <? total)%nat && (matched =? total)%nat then "Ready to Flip"
    else if (0 <? total)%nat && (0 <? matched)%nat then "Pending"
    else status in
  {| sInvoice := get r "Invoice#";
     sTickets := get r "Tickets";
     sDate := get r "Date";
     sName := get r "Name";
     sBalanceDue := get r "Balance Due";
     Status := status |}.

Definition runApproved (axonFile oiFile : file) : M unit :=
  log ReadingFiles ;;
  axonRows ← readTable axonFile;
  oiRows ← readTable oiFile;
  let requiredAxon := ["Invoice#"; "Tickets"; "Date"; "Name"; "Balance Due"] in
  forOf requiredAxon (fun c =>
    if lacks axonRows c then throw ("AXON missing column: " +:+ c) else mret tt) ;;
  (if lacks oiRows "Ticket" then throw "OpenInvoice missing column: Ticket" else mret tt) ;;
  let oiSet := oiSet oiRows in
  let out := map (approvedRow oiSet) axonRows in
  let summary := [
    {| Metric := "Invoices (AXON rows)"; Value := length out |};
    {| Metric := "Ready to Flip";
       Value := length (filter (fun r => Status r = "Ready to Flip") out) |};
    {| Metric := "Pending";
       Value := length (filter (fun r => Status r = "Pending") out) |};
    {| Metric := "Not Ready";
       Value := length (filter (fun r => Status r = "Not Ready") out) |} ] in
  log GeneratingExcel ;;
  downloadWorkbook
    [("Summary", SummaryRows summary); ("Invoice Status", StatusRows out)]
    "approved_invoice_status.xlsx" ;;
  log DoneDownloadStarted.

(** *** Remittance tool *)

Definition PIONEER : string := "Pioneer Natural Resources".
Definition XTO : string := "XTO Energy".

(** The variables the loop over [remRows] updates. *)
Record remitState := {
  out : list remitRow;
  pioneerTotal : spec_float;
  xtoTotal : spec_float
}.

(** [Number(String(r["Net Amount"]).replaceAll(",", "")) || 0]. *)
Definition parseNetAmount (cell : value) : spec_float :=
  let n := ToNumber (VString (replaceAll (ToString cell) "," "")) in
  if ToBoolean (VNumber n) then n else posZero.

(** [invToCustomer.get(inv) || "NOT FOUND IN AXON"]. *)
Definition lookupCustomer (invToCustomer : gmap string string) (inv : string) : string :=
  match invToCustomer !! inv with
  | Some name => if ToBoolean (VString name) then name else "NOT FOUND IN AXON"
  | None => "NOT FOUND IN AXON"
  end.

(** One turn of [for (const r of remRows)]. *)
Definition remitStep (invToCustomer : gmap string string) (st : remitState) (r : row)
  : remitState :=
  let refRaw := if has r "Reference" then get r "Reference" else get r "Reference/Text" in
  let inv := normalizeInvoice refRaw in
  let amt := parseNetAmount (get r "Net Amount") in
  let customer := lookupCustomer invToCustomer inv in
  let pioneer := if bool_decide (customer = PIONEER) then VNumber amt else VString "" in
  let xto := if bool_decide (customer = XTO) then VNumber amt else VString "" in
  {| out := out st ++ [ {| Reference := inv;
                           NetAmount := VNumber amt;
                           Customer := customer;
                           PioneerNaturalResources := pioneer;
                           XTO_ := xto |} ];
     pioneerTotal :=
       if bool_decide (customer = PIONEER) then add (pioneerTotal st) amt
       else pioneerTotal st;
     xtoTotal :=
       if bool_decide (customer = XTO) then add (xtoTotal st) amt
       else xtoTotal st |}.

(** [const invToCustomer = new Map(axonRows.map(...).filter(([k]) => k))]. *)
Definition buildInvToCustomer (axonRows : list row) : gmap string string :=
  newMap (filter (fun kv => ToBoolean (VString kv.1))
                 (map (fun r => (normalizeInvoice (get r "Invoice#"),
                                 trim (ToString (get r "Name")))) axonRows)).

Definition runRemit (axonFile remFile : file) : M unit :=
  log ReadingFiles ;;
  axonRows ← readTable axonFile;
  remRows ← readTable remFile;
  let requiredAxon := ["Invoice#"; "Name"] in
  forOf requiredAxon (fun c =>
    if lacks axonRows c then throw ("AXON missing column: " +:+ c) else mret tt) ;;
  let hasReference :=
    match remRows with
    | [] => false
    | r0 :: _ => has r0 "Reference" || has r0 "Reference/Text"
    end in
  (if negb hasReference
   then throw "Remittance missing column: Reference (or Reference/Text)" else mret tt) ;;
  (if lacks remRows "Net Amount"
   then throw "Remittance missing column: Net Amount" else mret tt) ;;
  let invToCustomer := buildInvToCustomer axonRows in
  let st := foldl (remitStep invToCustomer)
                  {| out := []; pioneerTotal := posZero; xtoTotal := posZero |} remRows in
  let out :=
    out st ++ [ {| Reference := "";
                   NetAmount := VString "";
                   Customer := "TOTAL";
                   PioneerNaturalResources := VNumber (pioneerTotal st);
                   XTO_ := VNumber (xtoTotal st) |} ] in
  let notFound := filter (fun r => Customer r = "NOT FOUND IN AXON") out in
  log GeneratingExcel ;;
  downloadWorkbook
    [("Customer Breakdown", RemitRows out); ("Not Found in AXON", RemitRows notFound)]
    "remittance_breakdown.xlsx" ;;
  log DoneDownloadStarted.

(** The page before a run. *)
Definition page0 : page := {| textContent := None; downloads := [] |}.

(** *** UI wiring *)

(** The two tab buttons and their panels: whether a button has the class
    "active", and the [style.display] of each panel. *)
Record tabs := {
  tabApprovedActive : bool;
  tabRemitActive : bool;
  panelApprovedDisplay : string;
  panelRemitDisplay : string
}.

(** [tabApproved.onclick]. *)
Definition tabApproved_onclick (t : tabs) : tabs :=
  {| tabApprovedActive := true;
     tabRemitActive := false;
     panelApprovedDisplay := "";
     panelRemitDisplay := "none" |}.

(** [tabRemit.onclick]. *)
Definition tabRemit_onclick (t : tabs) : tabs :=
  {| tabRemitActive := true;
     tabApprovedActive := false;
     panelRemitDisplay := "";
     panelApprovedDisplay := "none" |}.

(** The status line after a button handler: a text of the tool, or the
    cross mark and the message of the error the handler caught. *)
Inductive lineText :=
  | ToolText (t : statusText)
  | ErrorText (message : string).

Record screen := { line : option lineText; saved : list workbook }.

(** [try { ... } catch (e) { log(logEl, ... e.message) }]. *)
Definition tryCatch (body : M unit) (w : page) : screen :=
  match body w with
  | (inr _, w') => {| line := ToolText <$> textContent w'; saved := downloads w' |}
  | (inl message, w') => {| line := Some (ErrorText message); saved := downloads w' |}
  end.

(** The click handler of "btn-approved"; a file input without a file
    gives [None]. *)
Definition btnApproved_onclick (axon oi : option file) : page -> screen :=
  tryCatch
    match axon, oi with
    | Some axon, Some oi => runApproved axon oi
    | _, _ => throw "Please select both files."
    end.

(** The click handler of "btn-remit". *)
Definition btnRemit_onclick (axon rem : option file) : page -> screen :=
  tryCatch
    match axon, rem with
    | Some axon, Some rem => runRemit axon rem
    | _, _ => throw "Please select both files."
    end.

(** ** Notions the statements are written with *)

(** [c] occurs in [s]. *)
Fixpoint occurs (c : ascii) (s : string) : bool :=
  match s with
  | EmptyString => false
  | String a s' => Ascii.eqb a c || occurs c s'
  end.

(** The contract of the normalisers as section 4.1 of the specification
    words it: drop one trailing ".0" ... *)
Fixpoint dropDotZero (s : string) : string :=
  match s with
  | EmptyString => EmptyString
  | String c s' => if String.eqb s ".0" then EmptyString else String c (dropDotZero s')
  end.

(** ... then remove all comma and space characters. *)
Fixpoint removeCommasSpaces (s : string) : string :=
  match s with
  | EmptyString => EmptyString
  | String c s' =>
      if bool_decide (c = ","%char \/ c = " "%char) then removeCommasSpaces s'
      else String c (removeCommasSpaces s')
  end.

Definition normalize_spec (x : value) : string :=
  match x with
  | VNull | VUndefined => ""
  | _ => removeCommasSpaces (dropDotZero (trim (ToString x)))
  end.

(** The columns the Approved tool requires of the AXON export. *)
Definition approvedColumns : list string :=
  ["Invoice#"; "Tickets"; "Date"; "Name"; "Balance Due"].

(** A column is missing from a table that has no row, or whose first row
    has no such key. *)
Definition missing (rows : list row) (c : string) : Prop :=
  match rows with
  | [] => True
  | r0 :: _ => r0 !! c = None
  end.

(** The inputs that pass the validation of [runApproved]. *)
Definition approvedInputOk (axonRows oiRows : list row) : Prop :=
  Forall (fun c => ~ missing axonRows c) approvedColumns /\ ~ missing oiRows "Ticket".

(** The nonempty normalised ticket tokens of a Tickets cell. *)
Definition ticketTokens (cell : value) : list string :=
  filter (fun t => t <> "")
         (map (fun p => normalizeTicket (VString p)) (splitAxonTickets cell)).

(** The members of the Open-Invoice Ticket Set. *)
Definition openTickets (oiRows : list row) : list string :=
  filter (fun t => t <> "") (map (fun r => normalizeTicket (get r "Ticket")) oiRows).

Definition rowTotal (r : row) : nat := length (ticketTokens (get r "Tickets")).

Definition rowMatched (oiRows : list row) (r : row) : nat :=
  length (filter (fun t => t ∈ openTickets oiRows) (ticketTokens (get r "Tickets"))).

(** The status decision, in first-match order. *)
Definition statusDecision (total matched : nat) : string :=
  if decide (0 < total /\ matched = total)%nat then "Ready to Flip"
  else if decide (0 < total /\ 0 < matched)%nat then "Pending"
  else "Not Ready".

(** The workbook of an Approved run, and the page after a run that saved
    the workbook [wb]. *)
Definition approvedWorkbook (summary : list summaryRow) (out : list statusRow) : workbook :=
  {| sheets := [("Summary", SummaryRows summary); ("Invoice Status", StatusRows out)];
     filename := "approved_invoice_status.xlsx" |}.

Definition finished (w : page) (wb : workbook) : page :=
  {| textContent := Some DoneDownloadStarted; downloads := downloads w ++ [wb] |}.

(** The page a failed validation leaves: only the status line was set. *)
Definition reading (w : page) : page :=
  {| textContent := Some ReadingFiles; downloads := downloads w |}.

(** An identifier that normalisation leaves as it is: not empty, without
    comma or white space, not ending in ".0". *)
Fixpoint hasWhiteSpace (s : string) : bool :=
  match s with
  | EmptyString => false
  | String c s' => isWhiteSpace c || hasWhiteSpace s'
  end.


(** The numbers the Remittance tool adds up: not [-0], and with an
    exponent that is not below the least one of the format. *)
Definition summable (x : spec_float) : Prop :=
  x <> S754_zero true
  /\ forall s m e, x = S754_finite s m e -> emin prec emax <= e.

(** The columns the Remittance tool requires of the AXON export, and the
    inputs that pass its validation. *)
Definition remitColumns : list string := ["Invoice#"; "Name"].

Definition remitInputOk (axonRows remRows : list row) : Prop :=
  Forall (fun c => ~ missing axonRows c) remitColumns
  /\ (~ missing remRows "Reference" \/ ~ missing remRows "Reference/Text")
  /\ ~ missing remRows "Net Amount".

Definition remitWorkbook (out notFound : list remitRow) : workbook :=
  {| sheets := [("Customer Breakdown", RemitRows out);
                ("Not Found in AXON", RemitRows notFound)];
     filename := "remittance_breakdown.xlsx" |}.

(** What one turn of the loop pushes on [out]. *)
Definition pushed (invToCustomer : gmap string string) (r : row) : list remitRow :=
  out (remitStep invToCustomer
                 {| out := []; pioneerTotal := posZero; xtoTotal := posZero |} r).

(** The sum of a column from the first row to the last, a cell that is
    not a number read as [Number] reads it: the empty string is 0. *)
Definition columnSum (col : remitRow -> value) (rows : list remitRow) : spec_float :=
  foldl (fun acc r => add acc (ToNumber (col r))) posZero rows.

(** The amount for the number a cell converts to: 0 when the conversion
    gives no number (NaN); a zero of either sign is 0. *)
Definition amountOf (n : spec_float) : spec_float :=
  match n with
  | S754_nan => posZero
  | S754_zero _ => posZero
  | _ => n
  end.

(** The name of the last row of [axonRows] whose normalised Invoice# is
    [k], trimmed. *)
Definition lastName (axonRows : list row) (k : string) : option string :=
  foldl (fun acc r => if decide (normalizeInvoice (get r "Invoice#") = k)
                      then Some (trim (ToString (get r "Name"))) else acc)
        None axonRows.

(** The loop invariant: each running total is the sum of its column over
    the rows pushed so far, and is never [-0]. *)
Definition totalsInv (st : remitState) : Prop :=
  pioneerTotal st = columnSum PioneerNaturalResources (out st)
  /\ xtoTotal st = columnSum XTO_ (out st)
  /\ summable (pioneerTotal st) /\ summable (xtoTotal st).

(** A click on one of the two tabs. *)
Inductive tabClick := ClickApproved | ClickRemit.

Definition click (t : tabs) (c : tabClick) : tabs :=
  match c with
  | ClickApproved => tabApproved_onclick t
  | ClickRemit => tabRemit_onclick t
  end.

(** The tokens of a string: its comma-separated pieces, trimmed, the
    empty ones dropped. *)
Definition tokensOf (s : string) : list string :=
  filter (fun p => p <> "") (map trim (split s ",")).

(** Only white space. *)
Fixpoint blank (s : string) : bool :=
  match s with
  | EmptyString => true
  | String c s' => isWhiteSpace c && blank s'
  end.

(** A token as [splitAxonTickets] returns them: not empty, without comma,
    without white space at either end. *)
Definition token (t : string) : Prop :=
  t <> "" /\ occurs "," t = false /\ trim t = t.

(** A decimal digit, a string of decimal digits, and the integer it
    denotes. *)
Definition isDigit (c : ascii) : bool :=
  (48 <=? N_of_ascii c)%N && (N_of_ascii c <=? 57)%N.

Fixpoint digitString (s : string) : bool :=
  match s with
  | EmptyString => true
  | String c s' => isDigit c && digitString s'
  end.

Fixpoint decimalValueFrom (acc : Z) (s : string) : Z :=
  match s with
  | EmptyString => acc
  | String c s' => decimalValueFrom (acc * 10 + (Z.of_N (N_of_ascii c) - 48)) s'
  end.

Definition decimalValue (s : string) : Z := decimalValueFrom 0 s.

(** Sample rows. *)
Definition axonRow (invoice tickets name : string) : row :=
  list_to_map [("Invoice#", VString invoice); ("Tickets", VString tickets);
               ("Date", VString "2024-01-31"); ("Name", VString name);
               ("Balance Due", VNumber (ofZ 100))].

Definition oiRow (ticket : string) : row := {[ "Ticket" := VString ticket ]}.

Definition remittanceRow (reference amount : string) : row :=
  list_to_map [("Reference", VString reference); ("Net Amount", VString amount)].

(** A column of a given first row is present: by evaluation. *)
Ltac present := let H := fresh in intros H; vm_compute in H; discriminate H.

(** ** The built-ins on examples *)

Example trim_ex : trim "  a b  " = "a b".
Proof. reflexivity. Qed.

Example split_ex : split " A, B ,,C" "," = [" A"; " B "; ""; "C"].
Proof. reflexivity. Qed.

Example slice_ex : slice "1234.0" 0 (-2) = "1234".
Proof. reflexivity. Qed.

Example endsWith_ex : endsWith "1234.0" ".0" = true /\ endsWith "0" ".0" = false.
Proof. split; reflexivity. Qed.

Example StringToNumber_ex :
  StringToNumber "1000" = ofZ 1000 /\ StringToNumber " 2.5 " = S754_finite false 5629499534213120 (-51)
  /\ StringToNumber "" = posZero /\ StringToNumber "1,000" = NaN /\ StringToNumber "-0" = S754_zero true.
Proof. vm_compute. repeat split. Qed.

Example NumberToString_ex :
  NumberToString (ofZ 1234) = "1234" /\ NumberToString (StringToNumber "0.1") = "0.1"
  /\ NumberToString (StringToNumber "1e21") = "1e+21"
  /\ NumberToString (StringToNumber "-1234.50") = "-1234.5".
Proof. vm_compute. repeat split. Qed.

Example NumberToString_subnormal_ex :
  NumberToString (S754_finite false 1 (-1074)) = "5e-324"
  /\ NumberToString (S754_finite false 2 (-1074)) = "1e-323"
  /\ NumberToString (S754_finite false 3 (-1074)) = "1.5e-323"
  /\ NumberToString (add (StringToNumber "0.1") (StringToNumber "0.2")) = "0.30000000000000004".
Proof. vm_compute. repeat split. Qed.

Example splitAxonTickets_ex :
  splitAxonTickets (VString "") = [] /\ splitAxonTickets VNull = []
  /\ splitAxonTickets (VString " A, B ,,C") = ["A"; "B"; "C"].
Proof. vm_compute. repeat split. Qed.

Example normalizeTicket_ex :
  normalizeTicket (VString "1,234") = "1234" /\ normalizeTicket (VNumber (ofZ 1234)) = "1234".
Proof. vm_compute. repeat split. Qed.

(** ** Strings: substrings, suffixes, trimming *)

Lemma length_app (s t : string) :
  String.length (s +:+ t) = (String.length s + String.length t)%nat.
Proof. induction s as [|c s IH]; simpl; [reflexivity | now rewrite IH]. Qed.

Lemma substring_0_app (r t : string) :
  String.substring 0 (String.length r) (r +:+ t) = r.
Proof.
  induction r as [|c r IH]; simpl.
  - now destruct t.
  - now rewrite IH.
Qed.

Lemma substring_skip_app (r t : string) (n m : nat) :
  String.substring (String.length r + n) m (r +:+ t) = String.substring n m t.
Proof. induction r as [|c r IH]; simpl; [reflexivity | apply IH]. Qed.

Lemma substring_all (t : string) : String.substring 0 (String.length t) t = t.
Proof. induction t as [|c t IH]; simpl; [reflexivity | now rewrite IH]. Qed.

Lemma substring_split (s : string) (n : nat) :
  (n <= String.length s)%nat ->
  s = String.substring 0 n s +:+ String.substring n (String.length s - n) s.
Proof.
  revert n; induction s as [|c s IH]; intros [|n] Hn; simpl in *; try lia.
  - reflexivity.
  - now rewrite substring_all.
  - change (String c s = String c (String.substring 0 n s
                                     +:+ String.substring n (String.length s - n) s)).
    f_equal. apply IH. lia.
Qed.

Lemma endsWith_app (r suffix : string) : endsWith (r +:+ suffix) suffix = true.
Proof.
  unfold endsWith. rewrite length_app.
  apply andb_true_intro; split.
  - apply Nat.leb_le. lia.
  - replace (String.length r + String.length suffix - String.length suffix)%nat
      with (String.length r + 0)%nat by lia.
    rewrite substring_skip_app, substring_all. apply String.eqb_refl.
Qed.

Lemma endsWith_inv (s suffix : string) :
  endsWith s suffix = true -> exists r, s = r +:+ suffix.
Proof.
  unfold endsWith. intros [Hle Heq]%andb_prop.
  apply Nat.leb_le in Hle. apply String.eqb_eq in Heq.
  exists (String.substring 0 (String.length s - String.length suffix) s).
  pose proof (substring_split s (String.length s - String.length suffix)) as Hs.
  replace (String.length s - (String.length s - String.length suffix))%nat
    with (String.length suffix) in Hs by lia.
  rewrite Heq in Hs. apply Hs. lia.
Qed.

Lemma slice_dotZero (r : string) : slice (r +:+ ".0") 0 (-2) = r.
Proof.
  unfold slice. rewrite length_app. simpl String.length.
  replace (0 <? 0) with false by reflexivity.
  replace (-2 <? 0) with true by reflexivity.
  rewrite Z.min_l by lia.
  replace (Z.max (Z.of_nat (String.length r + 2) + -2) 0) with (Z.of_nat (String.length r)) by lia.
  rewrite Z.sub_0_r, Z.max_l by lia. simpl Z.to_nat. rewrite Nat2Z.id.
  apply substring_0_app.
Qed.

Lemma endsWith_cons (c : ascii) (s suffix : string) :
  endsWith s suffix = true -> endsWith (String c s) suffix = true.
Proof.
  intros [r ->]%endsWith_inv.
  change (String c (r +:+ suffix)) with (String c r +:+ suffix).
  apply endsWith_app.
Qed.

Lemma dropDotZero_app (r : string) : dropDotZero (r +:+ ".0") = r.
Proof.
  induction r as [|c r IH]; [reflexivity|].
  change (String c r +:+ ".0") with (String c (r +:+ ".0")).
  cbn [dropDotZero]. rewrite IH.
  destruct (String.eqb_spec (String c (r +:+ ".0")) ".0") as [E|_]; [|reflexivity].
  apply (f_equal String.length) in E. simpl in E. rewrite length_app in E.
  simpl in E. lia.
Qed.

Lemma dropDotZero_id (s : string) : endsWith s ".0" = false -> dropDotZero s = s.
Proof.
  induction s as [|c s IH]; intros H; [reflexivity|].
  cbn [dropDotZero].
  destruct (String.eqb_spec (String c s) ".0") as [E|_].
  - rewrite E in H. discriminate H.
  - f_equal. apply IH.
    destruct (endsWith s ".0") eqn:Es; [|reflexivity].
    now rewrite (endsWith_cons c _ _ Es) in H.
Qed.

(** The source's [if (s.endsWith(".0")) s = s.slice(0, -2)] drops one
    trailing ".0". *)
Lemma strip_dotZero (s : string) :
  (if endsWith s ".0" then slice s 0 (-2) else s) = dropDotZero s.
Proof.
  destruct (endsWith s ".0") eqn:E.
  - apply endsWith_inv in E as [r ->]. now rewrite slice_dotZero, dropDotZero_app.
  - symmetry. now apply dropDotZero_id.
Qed.

(** *** Removing one character *)

Lemma append_nil_l (s : string) : "" +:+ s = s.
Proof. reflexivity. Qed.

Lemma replaceAll_cons (a c : ascii) (s : string) :
  replaceAll (String a s) c "" =
  if Ascii.eqb a c then replaceAll s c "" else String a (replaceAll s c "").
Proof. reflexivity. Qed.

Lemma replaceAll_absent (s : string) (c : ascii) :
  occurs c s = false -> replaceAll s c "" = s.
Proof.
  induction s as [|a s IH]; simpl; [reflexivity|].
  intros [Ha Hs]%orb_false_elim. rewrite Ha. f_equal. now apply IH.
Qed.

Lemma occurs_replaceAll (s : string) (c d : ascii) :
  occurs d (replaceAll s c "") = negb (Ascii.eqb c d) && occurs d s.
Proof.
  induction s as [|a s IH]; cbn; [now rewrite andb_false_r|].
  destruct (Ascii.eqb_spec a c) as [->|Hac]; cbn.
  - rewrite append_nil_l, IH. destruct (Ascii.eqb c d); reflexivity.
  - rewrite IH. destruct (Ascii.eqb_spec a d) as [->|Had]; simpl; [|reflexivity].
    destruct (Ascii.eqb_spec c d) as [->|_]; [contradiction | reflexivity].
Qed.

Lemma replaceAll_commas_spaces (s : string) :
  replaceAll (replaceAll s "," "") " " "" = removeCommasSpaces s.
Proof.
  induction s as [|a s IH]; [reflexivity|].
  rewrite replaceAll_cons. cbn [removeCommasSpaces].
  destruct (Ascii.eqb_spec a ",") as [->|Hc].
  - rewrite bool_decide_eq_true_2 by now left. exact IH.
  - rewrite replaceAll_cons, IH.
    destruct (Ascii.eqb_spec a " ") as [->|Hs].
    + now rewrite bool_decide_eq_true_2 by now right.
    + now rewrite bool_decide_eq_false_2 by now intros [|].
Qed.

Lemma occurs_removeCommasSpaces (s : string) :
  occurs "," (removeCommasSpaces s) = false /\ occurs " " (removeCommasSpaces s) = false.
Proof.
  rewrite <- replaceAll_commas_spaces, !occurs_replaceAll, !Ascii.eqb_refl.
  split; [apply andb_false_r | reflexivity].
Qed.

Lemma removeCommasSpaces_id (s : string) :
  occurs "," s = false -> occurs " " s = false -> removeCommasSpaces s = s.
Proof.
  intros Hc Hs. rewrite <- replaceAll_commas_spaces.
  rewrite (replaceAll_absent s "," Hc). now apply replaceAll_absent.
Qed.

(** ** The normalisers *)

Lemma normalizeInvoice_normalizeTicket (x : value) :
  normalizeInvoice x = normalizeTicket x.
Proof. reflexivity. Qed.

Lemma normalizeTicket_unfold (x : value) :
  x <> VNull -> x <> VUndefined ->
  normalizeTicket x = removeCommasSpaces (dropDotZero (trim (ToString x))).
Proof.
  intros Hn Hu. unfold normalizeTicket.
  rewrite bool_decide_eq_false_2 by now intros [|].
  cbv zeta. now rewrite strip_dotZero, replaceAll_commas_spaces.
Qed.

(** C7. [normalizeTicket] and [normalizeInvoice] are total and have one
    contract: null and undefined give the empty string; any other value
    is converted to a string and trimmed, one trailing ".0" is dropped,
    and then every comma and every space is removed, in that order. *)
Theorem normalize_contract (x : value) :
  normalizeTicket x = normalize_spec x /\ normalizeInvoice x = normalize_spec x.
Proof.
  split; [|rewrite normalizeInvoice_normalizeTicket];
    (destruct x; try reflexivity; now rewrite normalizeTicket_unfold).
Qed.

(** *** Trimming *)

Lemma trimEnd_app (t u : string) :
  trimEnd u <> "" -> trimEnd (t +:+ u) = t +:+ trimEnd u.
Proof.
  intros Hu. induction t as [|c t IH]; [reflexivity|].
  change (String c t +:+ u) with (String c (t +:+ u)).
  cbn [trimEnd]. rewrite IH.
  change (String c t +:+ trimEnd u) with (String c (t +:+ trimEnd u)).
  destruct (t +:+ trimEnd u) eqn:E; [|reflexivity].
  destruct t; [|discriminate E]. now rewrite append_nil_l in E.
Qed.

Lemma trimStart_app_dotZero (r : string) :
  trimStart (r +:+ ".0") = trimStart r +:+ ".0".
Proof.
  induction r as [|c r IH]; [reflexivity|].
  change (String c r +:+ ".0") with (String c (r +:+ ".0")).
  cbn [trimStart]. now destruct (isWhiteSpace c).
Qed.

Lemma trim_app_dotZero (r : string) : trim (r +:+ ".0") = trimStart r +:+ ".0".
Proof.
  unfold trim. rewrite trimStart_app_dotZero.
  now rewrite trimEnd_app by discriminate.
Qed.

Lemma length_trimStart (s : string) :
  trimStart s = s \/ (String.length (trimStart s) < String.length s)%nat.
Proof.
  induction s as [|c s IH]; [now left|].
  cbn [trimStart]. destruct (isWhiteSpace c); [|now left].
  right. simpl. destruct IH as [->|IH]; lia.
Qed.

Lemma length_trimEnd (s : string) :
  trimEnd s = s \/ (String.length (trimEnd s) < String.length s)%nat.
Proof.
  induction s as [|c s IH]; [now left|].
  cbn [trimEnd]. destruct IH as [->|IH].
  - destruct s; [|now left]. destruct (isWhiteSpace c); [right; simpl; lia | now left].
  - right. destruct (trimEnd s); [destruct (isWhiteSpace c)|]; simpl in *; lia.
Qed.

Lemma length_dropDotZero (s : string) :
  (endsWith s ".0" = false /\ dropDotZero s = s)
  \/ (endsWith s ".0" = true /\ String.length (dropDotZero s) < String.length s)%nat.
Proof.
  destruct (endsWith s ".0") eqn:E.
  - right. split; [reflexivity|]. apply endsWith_inv in E as [r ->].
    rewrite dropDotZero_app, length_app. simpl. lia.
  - left. split; [reflexivity|]. now apply dropDotZero_id.
Qed.

Lemma length_trimStart_le (s : string) :
  (String.length (trimStart s) <= String.length s)%nat.
Proof. destruct (length_trimStart s) as [->|]; lia. Qed.

Lemma length_trimEnd_le (s : string) :
  (String.length (trimEnd s) <= String.length s)%nat.
Proof. destruct (length_trimEnd s) as [->|]; lia. Qed.

Lemma length_dropDotZero_le (s : string) :
  (String.length (dropDotZero s) <= String.length s)%nat.
Proof. destruct (length_dropDotZero s) as [[_ ->]|[_ ?]]; lia. Qed.

Lemma occurs_app (c : ascii) (s t : string) :
  occurs c (s +:+ t) = occurs c s || occurs c t.
Proof.
  induction s as [|a s IH]; [reflexivity|].
  change (String a s +:+ t) with (String a (s +:+ t)).
  cbn [occurs]. now rewrite IH, orb_assoc.
Qed.

Lemma occurs_trimStart (c : ascii) (s : string) :
  occurs c s = false -> occurs c (trimStart s) = false.
Proof.
  induction s as [|a s IH]; [easy|].
  cbn [trimStart]. destruct (isWhiteSpace a); [|easy].
  cbn [occurs]. intros [_ H]%orb_false_elim. now apply IH.
Qed.

Lemma occurs_trimEnd (c : ascii) (s : string) :
  occurs c s = false -> occurs c (trimEnd s) = false.
Proof.
  induction s as [|a s IH]; [easy|].
  cbn [occurs trimEnd]. intros [Ha H]%orb_false_elim. specialize (IH H).
  destruct (trimEnd s) eqn:E.
  - destruct (isWhiteSpace a); [reflexivity|]. cbn [occurs]. now rewrite Ha.
  - cbn [occurs] in *. now rewrite Ha.
Qed.

Lemma occurs_dropDotZero (c : ascii) (s : string) :
  occurs c s = false -> occurs c (dropDotZero s) = false.
Proof.
  intros H. destruct (length_dropDotZero s) as [[_ ->]|[E _]]; [exact H|].
  apply endsWith_inv in E as [r ->]. rewrite dropDotZero_app.
  rewrite occurs_app in H. now apply orb_false_elim in H.
Qed.

(** Normalising a string without commas and spaces only trims it and
    drops a trailing ".0". *)
Lemma normalizeTicket_clean (y : string) :
  occurs "," y = false -> occurs " " y = false ->
  normalizeTicket (VString y) = dropDotZero (trim y).
Proof.
  intros Hc Hs. rewrite normalizeTicket_unfold by discriminate.
  cbn [ToString]. unfold trim.
  apply removeCommasSpaces_id;
    now apply occurs_dropDotZero, occurs_trimEnd, occurs_trimStart.
Qed.

Lemma occurs_normalizeTicket (x : value) :
  occurs "," (normalizeTicket x) = false /\ occurs " " (normalizeTicket x) = false.
Proof.
  destruct x; try (split; reflexivity);
    rewrite normalizeTicket_unfold by discriminate; apply occurs_removeCommasSpaces.
Qed.

Lemma dropDotZero_trim_fixed (y : string) :
  dropDotZero (trim y) = y <-> endsWith y ".0" = false /\ trim y = y.
Proof.
  split.
  - intros H. unfold trim in *.
    pose proof (f_equal String.length H) as L.
    pose proof (length_trimStart_le y) as L1.
    pose proof (length_trimEnd_le (trimStart y)) as L2.
    pose proof (length_dropDotZero_le (trimEnd (trimStart y))) as L3.
    destruct (length_trimStart y) as [Ea|La];
      destruct (length_trimEnd (trimStart y)) as [Eb|Lb];
      destruct (length_dropDotZero (trimEnd (trimStart y))) as [[Ec Ed]|[_ Lc]];
      try lia.
    rewrite Eb, Ea in Ec. rewrite Eb, Ea. now split.
  - intros [E T]. rewrite T. now apply dropDotZero_id.
Qed.

(** C5, as the code has it. Normalising a normalised identifier [y] again
    returns [y] exactly when [y] does not end in ".0" and has no white
    space at either end; so [normalizeTicket] and [normalizeInvoice] are
    idempotent at the inputs whose normal form is of that kind, and at no
    other input. *)
Theorem normalize_idempotent_iff (x : value) :
  (normalizeTicket (VString (normalizeTicket x)) = normalizeTicket x
   <-> endsWith (normalizeTicket x) ".0" = false
       /\ trim (normalizeTicket x) = normalizeTicket x)
  /\ (normalizeInvoice (VString (normalizeInvoice x)) = normalizeInvoice x
      <-> endsWith (normalizeInvoice x) ".0" = false
          /\ trim (normalizeInvoice x) = normalizeInvoice x).
Proof.
  assert (normalizeTicket (VString (normalizeTicket x)) = normalizeTicket x
          <-> endsWith (normalizeTicket x) ".0" = false
              /\ trim (normalizeTicket x) = normalizeTicket x) as H.
  { destruct (occurs_normalizeTicket x) as [Hc Hs].
    rewrite (normalizeTicket_clean _ Hc Hs). apply dropDotZero_trim_fixed. }
  split; exact H.
Qed.

(** C5, as the specification words it, fails: "1.0.0" normalises to "1.0",
    which normalises to "1". *)
Lemma normalize_not_idempotent :
  normalizeTicket (VString "1.0.0") = "1.0"
  /\ normalizeTicket (VString (normalizeTicket (VString "1.0.0"))) = "1"
  /\ normalizeTicket (VString (normalizeTicket (VString "1.0.0")))
     <> normalizeTicket (VString "1.0.0")
  /\ normalizeInvoice (VString (normalizeInvoice (VString "1.0.0")))
     <> normalizeInvoice (VString "1.0.0").
Proof. repeat split; try reflexivity; discriminate. Qed.

(** Idempotence at an input whose normal form, "1234", is of that kind. *)
Lemma normalize_idempotent_iff_witness :
  normalizeTicket (VString (normalizeTicket (VString " 1,234.0 ")))
  = normalizeTicket (VString " 1,234.0 ").
Proof. apply (normalize_idempotent_iff (VString " 1,234.0 ")). split; reflexivity. Defined.

Lemma ToString_dotZero_not_nullish (x : value) (r : string) :
  ToString x = r +:+ ".0" -> x <> VNull /\ x <> VUndefined.
Proof.
  intros H. pose proof (endsWith_app r ".0") as E. rewrite <- H in E.
  split; intros ->; discriminate E.
Qed.

(** C6, as the code has it. When the string form of a value is [r]
    followed by ".0", normalisation drops exactly that suffix and returns
    [r] without its leading white space, commas and spaces; it returns [r]
    itself when [r] has none of these. *)
Theorem normalize_strips_dotZero (x : value) (r : string) :
  ToString x = r +:+ ".0" ->
  normalizeTicket x = removeCommasSpaces (trimStart r)
  /\ normalizeInvoice x = removeCommasSpaces (trimStart r)
  /\ (trimStart r = r -> occurs "," r = false -> occurs " " r = false ->
      normalizeTicket x = r /\ normalizeInvoice x = r).
Proof.
  intros H. destruct (ToString_dotZero_not_nullish x r H) as [Hn Hu].
  change (normalizeInvoice x) with (normalizeTicket x).
  assert (normalizeTicket x = removeCommasSpaces (trimStart r)) as E.
  { rewrite normalizeTicket_unfold by assumption.
    now rewrite H, trim_app_dotZero, dropDotZero_app. }
  rewrite E. split; [reflexivity|]. split; [reflexivity|].
  intros T Hc Hs. rewrite T. split; now apply removeCommasSpaces_id.
Qed.

Lemma normalize_strips_dotZero_witness :
  normalizeTicket (VString "1234.0") = "1234" /\ normalizeInvoice (VString "1234.0") = "1234".
Proof.
  apply (normalize_strips_dotZero (VString "1234.0") "1234"); reflexivity.
Defined.

(** C6, as the specification words it, fails: the string form "1,234.0"
    ends in ".0", and what is returned is not the rest "1,234". *)
Lemma normalize_dotZero_rest_changed :
  ToString (VString "1,234.0") = "1,234" +:+ ".0"
  /\ normalizeTicket (VString "1,234.0") = "1234"
  /\ normalizeTicket (VString "1,234.0") <> "1,234".
Proof. repeat split; try reflexivity; discriminate. Qed.

(** ** The page monad *)

Lemma bind_ok {A B} (m : M A) (k : A -> M B) (w w' : page) (a : A) :
  m w = (inr a, w') -> (m ≫= k) w = k a w'.
Proof. intros H. unfold mbind, M_bind. now rewrite H. Qed.

Lemma bind_throw {A B} (m : M A) (k : A -> M B) (w w' : page) (e : string) :
  m w = (inl e, w') -> (m ≫= k) w = (inl e, w').
Proof. intros H. unfold mbind, M_bind. now rewrite H. Qed.

Lemma lacks_missing (rows : list row) (c : string) :
  lacks rows c = true <-> missing rows c.
Proof.
  destruct rows as [|r0 rows]; simpl; [easy|].
  unfold has. rewrite negb_true_iff, bool_decide_eq_false.
  rewrite <- eq_None_not_Some. reflexivity.
Qed.

Lemma lacks_not_missing (rows : list row) (c : string) :
  lacks rows c = false <-> ~ missing rows c.
Proof. rewrite <- lacks_missing. now destruct (lacks rows c). Qed.

(** The loop that checks the required columns: it passes when none is
    missing, and otherwise throws at the first one that is. *)
Lemma checkColumns_ok (rows : list row) (cols : list string) (w : page) :
  Forall (fun c => ~ missing rows c) cols ->
  forOf cols (fun c => if lacks rows c then throw ("AXON missing column: " +:+ c)
                       else mret tt) w = (inr tt, w).
Proof.
  induction 1 as [|c cols Hc _ IH]; [reflexivity|].
  cbn [forOf]. apply lacks_not_missing in Hc.
  erewrite bind_ok; [exact IH|]. now rewrite Hc.
Qed.

Lemma checkColumns_throw (rows : list row) (pre post : list string) (c : string) (w : page) :
  Forall (fun c => ~ missing rows c) pre -> missing rows c ->
  forOf (pre ++ c :: post)
        (fun c => if lacks rows c then throw ("AXON missing column: " +:+ c)
                  else mret tt) w = (inl ("AXON missing column: " +:+ c), w).
Proof.
  intros Hpre Hc. induction Hpre as [|d pre Hd _ IH]; cbn [app forOf].
  - apply lacks_missing in Hc. apply bind_throw. now rewrite Hc.
  - apply lacks_not_missing in Hd. erewrite bind_ok; [exact IH|]. now rewrite Hd.
Qed.

(** ** The Approved tool *)

Lemma ToBoolean_VString (t : string) : ToBoolean (VString t) <-> t <> "".
Proof.
  cbn [ToBoolean]. destruct (String.eqb_spec t ""); simpl; intuition congruence.
Qed.

Lemma runApproved_ok (axonRows oiRows : list row) (w : page) :
  approvedInputOk axonRows oiRows ->
  let oiSet :=
    newSet (filter (fun t => ToBoolean (VString t))
                   (map (fun r => normalizeTicket (get r "Ticket")) oiRows)) in
  let out := map (approvedRow oiSet) axonRows in
  runApproved axonRows oiRows w =
  (inr tt,
   finished w (approvedWorkbook
     [ {| Metric := "Invoices (AXON rows)"; Value := length out |};
       {| Metric := "Ready to Flip";
          Value := length (filter (fun r => Status r = "Ready to Flip") out) |};
       {| Metric := "Pending";
          Value := length (filter (fun r => Status r = "Pending") out) |};
       {| Metric := "Not Ready";
          Value := length (filter (fun r => Status r = "Not Ready") out) |} ] out)).
Proof.
  intros [Hax Hoi] oiSet out. unfold runApproved.
  erewrite bind_ok by reflexivity.
  erewrite bind_ok by reflexivity.
  erewrite bind_ok by reflexivity.
  erewrite bind_ok by (apply checkColumns_ok, Hax).
  apply lacks_not_missing in Hoi. rewrite Hoi.
  reflexivity.
Qed.

Lemma approvedRow_status (oiRows : list row) (r : row) :
  Status (approvedRow
            (newSet (filter (fun t => ToBoolean (VString t))
                            (map (fun r => normalizeTicket (get r "Ticket")) oiRows))) r)
  = statusDecision (rowTotal r) (rowMatched oiRows r).
Proof.
  unfold approvedRow, total, matched, normalized.
  unfold rowTotal, rowMatched, ticketTokens, openTickets, newSet, statusDecision.
  cbn [Status]. cbv zeta.
  rewrite !(list_filter_iff (fun t => ToBoolean (VString t)) (fun t => t <> ""))
    by apply ToBoolean_VString.
  set (tokens := filter (fun t => t <> "") (map _ (splitAxonTickets _))).
  set (open := filter (fun t => t <> "") (map _ oiRows)).
  rewrite (list_filter_iff (fun t => t ∈ (list_to_set open : gset string)) (fun t => t ∈ open))
    by (intros t; apply elem_of_list_to_set).
  set (total := length tokens). set (matched := length (filter _ tokens)).
  destruct (Nat.ltb_spec 0 total), (Nat.eqb_spec matched total), (Nat.ltb_spec 0 matched);
    repeat case_decide; simpl; try reflexivity; lia.
Qed.

(** C1. On every input that passes validation a run of [runApproved]
    saves a workbook whose "Invoice Status" sheet has one row per AXON
    row, in order, and the Status of that row is "Ready to Flip" if
    [total > 0] and [matched = total], else "Pending" if [total > 0] and
    [matched > 0], else "Not Ready", where [total] counts the nonempty
    normalised ticket tokens of the row's Tickets cell and [matched]
    those of them that are in the Open-Invoice Ticket Set. *)
Theorem runApproved_status (axonRows oiRows : list row) (w : page) :
  approvedInputOk axonRows oiRows ->
  exists summary out,
    runApproved axonRows oiRows w = (inr tt, finished w (approvedWorkbook summary out))
    /\ Forall2 (fun r o => Status o = statusDecision (rowTotal r) (rowMatched oiRows r))
               axonRows out.
Proof.
  intros Hok. eexists _, _. split; [apply (runApproved_ok _ _ _ Hok)|].
  apply Forall2_fmap_r, Forall_Forall2_diag, Forall_forall.
  intros r _. apply approvedRow_status.
Qed.

Lemma status_three (oiSet : gset string) (r : row) :
  Status (approvedRow oiSet r) = "Ready to Flip"
  \/ Status (approvedRow oiSet r) = "Pending"
  \/ Status (approvedRow oiSet r) = "Not Ready".
Proof.
  unfold approvedRow. cbn [Status]. cbv zeta.
  repeat match goal with |- context [if ?b then _ else _] => destruct b end; auto.
Qed.

Lemma count_by_status (out : list statusRow) :
  Forall (fun o => Status o = "Ready to Flip" \/ Status o = "Pending"
                   \/ Status o = "Not Ready") out ->
  (length (filter (fun r => Status r = "Ready to Flip") out)
   + length (filter (fun r => Status r = "Pending") out)
   + length (filter (fun r => Status r = "Not Ready") out) = length out)%nat.
Proof.
  induction 1 as [|o out Ho _ IH]; [reflexivity|].
  rewrite !filter_cons.
  destruct Ho as [E|[E|E]]; rewrite E;
    repeat (case_decide; try discriminate; try congruence); simpl; lia.
Qed.

(** C2. On every input that passes validation the four values of the
    Summary sheet satisfy: the "Ready to Flip" count plus the "Pending"
    count plus the "Not Ready" count is the "Invoices (AXON rows)" value,
    which is the number of AXON rows. *)
Theorem runApproved_summary_counts (axonRows oiRows : list row) (w : page) :
  approvedInputOk axonRows oiRows ->
  exists total ready pending notReady out,
    runApproved axonRows oiRows w =
    (inr tt, finished w (approvedWorkbook
       [ {| Metric := "Invoices (AXON rows)"; Value := total |};
         {| Metric := "Ready to Flip"; Value := ready |};
         {| Metric := "Pending"; Value := pending |};
         {| Metric := "Not Ready"; Value := notReady |} ] out))
    /\ total = length axonRows
    /\ (ready + pending + notReady = total)%nat.
Proof.
  intros Hok. eexists _, _, _, _, _.
  split; [apply (runApproved_ok _ _ _ Hok)|].
  split; [apply length_map|].
  apply count_by_status, Forall_fmap, Forall_forall.
  intros r _. apply status_three.
Qed.

Lemma runApproved_status_witness :
  exists summary out,
    runApproved [axonRow "A-1" "T1,T2" "Acme"; axonRow "A-2" "" "Acme"]
                [oiRow "T1"] page0
    = (inr tt, finished page0 (approvedWorkbook summary out))
    /\ Forall2 (fun r o => Status o = statusDecision (rowTotal r) (rowMatched [oiRow "T1"] r))
               [axonRow "A-1" "T1,T2" "Acme"; axonRow "A-2" "" "Acme"] out.
Proof.
  apply runApproved_status.
  split; [repeat constructor; present | present].
Defined.

Lemma runApproved_summary_counts_witness :
  exists total ready pending notReady out,
    runApproved [axonRow "A-1" "T1,T2" "Acme"; axonRow "A-2" "" "Acme"]
                [oiRow "T1"] page0 =
    (inr tt, finished page0 (approvedWorkbook
       [ {| Metric := "Invoices (AXON rows)"; Value := total |};
         {| Metric := "Ready to Flip"; Value := ready |};
         {| Metric := "Pending"; Value := pending |};
         {| Metric := "Not Ready"; Value := notReady |} ] out))
    /\ total = 2%nat
    /\ (ready + pending + notReady = total)%nat.
Proof.
  apply (runApproved_summary_counts
           [axonRow "A-1" "T1,T2" "Acme"; axonRow "A-2" "" "Acme"] [oiRow "T1"] page0).
  split; [repeat constructor; present | present].
Defined.

(** The examples of section 8 of the specification. *)
Example runApproved_ex :
  forall w, exists summary,
    runApproved [axonRow "A-1" "T1,T2" "Acme"; axonRow "A-2" "T1,T7" "Acme";
                 axonRow "A-3" "T9" "Acme"; axonRow "A-4" "" "Acme"]
                [oiRow "T1"; oiRow "T2.0"; oiRow "T3"] w
    = (inr tt, finished w (approvedWorkbook summary
         [ {| sInvoice := VString "A-1"; sTickets := VString "T1,T2";
              sDate := VString "2024-01-31"; sName := VString "Acme";
              sBalanceDue := VNumber (ofZ 100); Status := "Ready to Flip" |};
           {| sInvoice := VString "A-2"; sTickets := VString "T1,T7";
              sDate := VString "2024-01-31"; sName := VString "Acme";
              sBalanceDue := VNumber (ofZ 100); Status := "Pending" |};
           {| sInvoice := VString "A-3"; sTickets := VString "T9";
              sDate := VString "2024-01-31"; sName := VString "Acme";
              sBalanceDue := VNumber (ofZ 100); Status := "Not Ready" |};
           {| sInvoice := VString "A-4"; sTickets := VString "";
              sDate := VString "2024-01-31"; sName := VString "Acme";
              sBalanceDue := VNumber (ofZ 100); Status := "Not Ready" |} ])).
Proof. intros w. eexists. vm_compute. reflexivity. Qed.

(** *** Validation *)

Lemma missing_head (rows rows' : list row) (c : string) :
  head rows' = head rows -> missing rows' c <-> missing rows c.
Proof. destruct rows, rows'; simpl; intros H; try discriminate H; [easy|]. now injection H as ->. Qed.

Lemma first_missing (rows : list row) (cols : list string) :
  Exists (missing rows) cols ->
  exists pre c post,
    cols = pre ++ c :: post /\ Forall (fun c => ~ missing rows c) pre /\ missing rows c.
Proof.
  induction 1 as [c cols Hc | d cols _ (pre & c & post & -> & Hpre & Hc)].
  - now exists [], c, cols.
  - destruct (lacks rows d) eqn:Hd.
    + apply lacks_missing in Hd. now exists [], d, (pre ++ c :: post).
    + apply lacks_not_missing in Hd. exists (d :: pre), c, post. auto.
Qed.

Lemma runApproved_throw_axon (axonRows oiRows : list row) (w : page)
      (pre post : list string) (c : string) :
  approvedColumns = pre ++ c :: post ->
  Forall (fun c => ~ missing axonRows c) pre -> missing axonRows c ->
  runApproved axonRows oiRows w = (inl ("AXON missing column: " +:+ c), reading w).
Proof.
  intros Hcols Hpre Hc. unfold runApproved.
  erewrite bind_ok by reflexivity.
  erewrite bind_ok by reflexivity.
  erewrite bind_ok by reflexivity.
  apply bind_throw.
  change ["Invoice#"; "Tickets"; "Date"; "Name"; "Balance Due"] with approvedColumns.
  rewrite Hcols. now apply checkColumns_throw.
Qed.

Lemma runApproved_throw_oi (axonRows oiRows : list row) (w : page) :
  Forall (fun c => ~ missing axonRows c) approvedColumns -> missing oiRows "Ticket" ->
  runApproved axonRows oiRows w = (inl "OpenInvoice missing column: Ticket", reading w).
Proof.
  intros Hax Hoi. unfold runApproved.
  erewrite bind_ok by reflexivity.
  erewrite bind_ok by reflexivity.
  erewrite bind_ok by reflexivity.
  erewrite bind_ok by (apply checkColumns_ok, Hax).
  apply bind_throw. apply lacks_missing in Hoi. now rewrite Hoi.
Qed.

(** C9. If the AXON rows are empty or their first row lacks one of
    Invoice#, Tickets, Date, Name, Balance Due, or the OpenInvoice rows
    are empty or their first row lacks Ticket, then [runApproved] throws an
    error whose message names a missing column, no workbook is saved, and
    the outcome is the same for all inputs with the same first rows. *)
Theorem runApproved_missing_column (axonRows oiRows : list row) (w : page) :
  Exists (missing axonRows) approvedColumns \/ missing oiRows "Ticket" ->
  exists msg,
    (runApproved axonRows oiRows w).1 = inl msg
    /\ downloads (runApproved axonRows oiRows w).2 = downloads w
    /\ ((exists c, c ∈ approvedColumns /\ missing axonRows c
                   /\ msg = "AXON missing column: " +:+ c)
        \/ (missing oiRows "Ticket" /\ msg = "OpenInvoice missing column: Ticket"))
    /\ forall axonRows' oiRows',
         head axonRows' = head axonRows -> head oiRows' = head oiRows ->
         (runApproved axonRows' oiRows' w).1 = inl msg.
Proof.
  intros H.
  destruct (decide (Exists (fun c => lacks axonRows c = true) approvedColumns)) as [Hax|Hax].
  - apply (Exists_impl _ (missing axonRows)) in Hax; [|intros c; apply lacks_missing].
    destruct (first_missing _ _ Hax) as (pre & c & post & Hcols & Hpre & Hc).
    exists ("AXON missing column: " +:+ c).
    rewrite (runApproved_throw_axon _ _ _ _ _ _ Hcols Hpre Hc).
    repeat split.
    + left. exists c. repeat split; [|assumption].
      rewrite Hcols. apply elem_of_app. right. apply elem_of_cons. now left.
    + intros axonRows' oiRows' Ha _.
      rewrite (runApproved_throw_axon axonRows' oiRows' w pre post c Hcols); [reflexivity| |].
      * eapply Forall_impl; [exact Hpre|]. intros d Hd. now rewrite (missing_head _ _ d Ha).
      * now rewrite (missing_head _ _ c Ha).
  - apply not_Exists_Forall in Hax; [|intros c; apply _].
    assert (Forall (fun c => ~ missing axonRows c) approvedColumns) as Hall.
    { eapply Forall_impl; [exact Hax|]. intros c Hc. apply lacks_not_missing.
      simpl in Hc. now destruct (lacks axonRows c). }
    destruct H as [H|Hoi].
    { exfalso. apply Exists_exists in H as (c & Hin & Hc).
      rewrite Forall_forall in Hall. now apply (Hall c Hin). }
    exists "OpenInvoice missing column: Ticket".
    rewrite (runApproved_throw_oi _ _ _ Hall Hoi).
    repeat split.
    + now right.
    + intros axonRows' oiRows' Ha Ho.
      rewrite (runApproved_throw_oi axonRows' oiRows' w); [reflexivity| |].
      * eapply Forall_impl; [exact Hall|]. intros d Hd. now rewrite (missing_head _ _ d Ha).
      * now rewrite (missing_head _ _ "Ticket" Ho).
Qed.

(** An AXON export without the Name column: the run stops with an error
    that names it, and saves nothing. *)
Lemma runApproved_missing_column_witness :
  exists msg,
    (runApproved [delete "Name" (axonRow "A-1" "T1" "Acme")] [oiRow "T1"] page0).1 = inl msg
    /\ downloads (runApproved [delete "Name" (axonRow "A-1" "T1" "Acme")] [oiRow "T1"] page0).2
       = downloads page0
    /\ ((exists c, c ∈ approvedColumns
                   /\ missing [delete "Name" (axonRow "A-1" "T1" "Acme")] c
                   /\ msg = "AXON missing column: " +:+ c)
        \/ (missing [oiRow "T1"] "Ticket" /\ msg = "OpenInvoice missing column: Ticket"))
    /\ forall axonRows' oiRows',
         head axonRows' = head [delete "Name" (axonRow "A-1" "T1" "Acme")] ->
         head oiRows' = head [oiRow "T1"] ->
         (runApproved axonRows' oiRows' page0).1 = inl msg.
Proof.
  apply (runApproved_missing_column [delete "Name" (axonRow "A-1" "T1" "Acme")]
                                    [oiRow "T1"] page0).
  left. do 3 apply Exists_cons_tl. apply Exists_cons_hd. vm_compute. reflexivity.
Defined.

Example runApproved_missing_ex :
  runApproved [delete "Name" (axonRow "A-1" "T1" "Acme")] [oiRow "T1"] page0
  = (inl "AXON missing column: Name", reading page0)
  /\ runApproved [] [] page0 = (inl "AXON missing column: Invoice#", reading page0)
  /\ runApproved [axonRow "A-1" "T1" "Acme"] [] page0
     = (inl "OpenInvoice missing column: Ticket", reading page0).
Proof. vm_compute. repeat split. Qed.

(** *** Splitting a Tickets cell *)

Lemma split_no_separator (t : string) (sep : ascii) :
  occurs sep t = false -> split t sep = [t].
Proof.
  induction t as [|c t IH]; [reflexivity|].
  cbn [occurs split]. intros [Hc Ht]%orb_false_elim.
  now rewrite Hc, (IH Ht).
Qed.

Lemma split_app_separator (t u : string) (sep : ascii) :
  occurs sep t = false -> split (t +:+ String sep u) sep = t :: split u sep.
Proof.
  induction t as [|c t IH].
  - intros _. rewrite append_nil_l. cbn [split]. now rewrite Ascii.eqb_refl.
  - cbn [occurs]. intros [Hc Ht]%orb_false_elim.
    change (String c t +:+ String sep u) with (String c (t +:+ String sep u)).
    cbn [split]. now rewrite Hc, (IH Ht).
Qed.




Lemma trimStart_plain (s : string) : hasWhiteSpace s = false -> trimStart s = s.
Proof.
  destruct s as [|c s]; [reflexivity|].
  cbn [hasWhiteSpace trimStart]. now intros [-> _]%orb_false_elim.
Qed.

Lemma trimEnd_plain (s : string) : hasWhiteSpace s = false -> trimEnd s = s.
Proof.
  induction s as [|c s IH]; [reflexivity|].
  cbn [hasWhiteSpace trimEnd]. intros [Hc Hs]%orb_false_elim.
  rewrite (IH Hs), Hc. now destruct s.
Qed.

Lemma trim_plain (s : string) : hasWhiteSpace s = false -> trim s = s.
Proof. intros H. unfold trim. now rewrite trimStart_plain, trimEnd_plain. Qed.












(** ** Numbers: rounding never goes below the least exponent, and a sum
       is [-0] only when both terms are *)

Lemma emin_value : emin prec emax = -1074.
Proof. reflexivity. Qed.

Lemma fexp_ge_emin (e : Z) : emin prec emax <= fexp prec emax e.
Proof. unfold fexp. lia. Qed.

Lemma shr_exponent (mrs : shr_record) (e n : Z) : e <= snd (shr mrs e n).
Proof. unfold shr. destruct n; simpl; lia. Qed.

Lemma binary_round_aux_exponent (sx : bool) (mx ex : Z) (lx : location) (s : bool)
      (m : positive) (e : Z) :
  binary_round_aux prec emax sx mx ex lx = S754_finite s m e -> ex <= e.
Proof.
  unfold binary_round_aux, shr_fexp.
  pose proof (shr_exponent (shr_record_of_loc mx lx) ex
                (fexp prec emax (Zdigits2 mx + ex) - ex)) as H1.
  destruct (shr (shr_record_of_loc mx lx) ex _) as [mrs' e'].
  match goal with |- context [shr ?a e' ?n] =>
    pose proof (shr_exponent a e' n) as H2; destruct (shr a e' n) as [mrs'' e''] end.
  simpl in H1, H2.
  destruct (shr_m mrs''); try discriminate.
  destruct (e'' <=? emax - prec); [|discriminate].
  intros [= _ _ <-]. lia.
Qed.

Lemma shl_align_exponent (mx : positive) (ex ex' : Z) :
  snd (shl_align mx ex ex') = Z.min ex ex'.
Proof. unfold shl_align. destruct (ex' - ex) eqn:E; simpl; lia. Qed.

Lemma binary_round_exponent (sx : bool) (mx : positive) (ex : Z) (s : bool)
      (m : positive) (e : Z) :
  emin prec emax <= ex ->
  binary_round prec emax sx mx ex = S754_finite s m e -> emin prec emax <= e.
Proof.
  intros Hex. unfold binary_round.
  pose proof (shl_align_exponent mx ex (fexp prec emax (Z.pos (digits2_pos mx) + ex))) as Ha.
  pose proof (fexp_ge_emin (Z.pos (digits2_pos mx) + ex)) as Hf.
  destruct (shl_align mx ex _) as [mz ez]. simpl in Ha.
  intros H%binary_round_aux_exponent. lia.
Qed.

(** Shifting right is division by a power of two. *)
Lemma shr_1_m (mrs : shr_record) : 0 <= shr_m mrs -> shr_m (shr_1 mrs) = shr_m mrs / 2.
Proof.
  destruct mrs as [m r s]. simpl. intros Hm.
  destruct m as [|[p|p|]|p]; try lia; cbn [shr_m].
  - reflexivity.
  - rewrite Pos2Z.inj_xI. apply (Z.div_unique _ _ _ 1); lia.
  - rewrite Pos2Z.inj_xO. apply (Z.div_unique _ _ _ 0); lia.
  - reflexivity.
Qed.

Lemma iter_shr_1_m (p : positive) (mrs : shr_record) :
  0 <= shr_m mrs -> shr_m (SpecFloat.iter_pos shr_1 p mrs) = shr_m mrs / 2 ^ Z.pos p.
Proof.
  revert mrs. induction p as [p IH|p IH|]; intros mrs Hm; cbn [SpecFloat.iter_pos].
  - assert (0 <= shr_m (shr_1 mrs)) as H1 by (rewrite shr_1_m by lia; apply Z.div_pos; lia).
    assert (0 <= shr_m (SpecFloat.iter_pos shr_1 p (shr_1 mrs))) as H2
        by (rewrite IH by lia; apply Z.div_pos; lia).
    rewrite IH, IH, shr_1_m by lia.
    rewrite !Z.div_div by lia. f_equal.
    rewrite <- Z.pow_add_r, <- (Z.pow_1_r 2) at 1 by lia.
    rewrite <- Z.pow_add_r by lia. f_equal. lia.
  - assert (0 <= shr_m (SpecFloat.iter_pos shr_1 p mrs)) as H2
        by (rewrite IH by lia; apply Z.div_pos; lia).
    rewrite IH, IH by lia.
    rewrite !Z.div_div by lia. f_equal.
    rewrite <- Z.pow_add_r by lia. f_equal. lia.
  - now rewrite shr_1_m.
Qed.

Lemma digits2_pos_bound (p : positive) : 2 ^ Z.pos (digits2_pos p) <= 2 * Z.pos p.
Proof.
  induction p as [p IH|p IH|]; cbn [digits2_pos].
  - rewrite Pos2Z.inj_succ, Z.pow_succ_r by lia. lia.
  - rewrite Pos2Z.inj_succ, Z.pow_succ_r by lia. lia.
  - reflexivity.
Qed.

Lemma shr_m_of_loc (m : Z) (l : location) : shr_m (shr_record_of_loc m l) = m.
Proof. now destruct l as [|[]]. Qed.

(** One rounding step on a positive significand at an exponent not below
    [emin] leaves a positive significand. *)
Lemma shr_fexp_positive (m : positive) (e : Z) (l : location) :
  emin prec emax <= e -> 0 < shr_m (fst (shr_fexp prec emax (Z.pos m) e l)).
Proof.
  intros He. unfold shr_fexp, shr. cbn [Zdigits2].
  destruct (fexp prec emax (Z.pos (digits2_pos m) + e) - e) as [|n|n] eqn:En;
    cbn [fst]; try (rewrite shr_m_of_loc; lia).
  rewrite iter_shr_1_m by (rewrite shr_m_of_loc; lia).
  rewrite shr_m_of_loc. apply Z.div_str_pos. split; [lia|].
  pose proof (digits2_pos_bound m) as Hd.
  unfold fexp in En. rewrite emin_value in *. unfold prec in En.
  assert (Z.pos n <= Z.pos (digits2_pos m) - 1) as Hn by lia.
  pose proof (Z.pow_le_mono_r 2 (Z.pos n) (Z.pos (digits2_pos m) - 1) ltac:(lia) Hn) as Hp.
  replace (Z.pos (digits2_pos m)) with (Z.succ (Z.pos (digits2_pos m) - 1)) in Hd by lia.
  rewrite Z.pow_succ_r in Hd by lia. lia.
Qed.

Lemma round_nearest_even_ge (m : Z) (l : location) : m <= round_nearest_even m l.
Proof. destruct l as [|[]]; simpl; try lia. destruct (Z.even m); lia. Qed.

Lemma binary_round_aux_nonzero (sx : bool) (m : positive) (e : Z) (l : location) (s : bool) :
  emin prec emax <= e -> binary_round_aux prec emax sx (Z.pos m) e l <> S754_zero s.
Proof.
  intros He. unfold binary_round_aux.
  pose proof (shr_fexp_positive m e l He) as H1.
  pose proof (shr_exponent (shr_record_of_loc (Z.pos m) l) e
                (fexp prec emax (Zdigits2 (Z.pos m) + e) - e)) as E1.
  fold (shr_fexp prec emax (Z.pos m) e l) in E1.
  destruct (shr_fexp prec emax (Z.pos m) e l) as [mrs' e']. cbn [fst snd] in H1, E1.
  pose proof (round_nearest_even_ge (shr_m mrs') (loc_of_shr_record mrs')) as H2.
  destruct (round_nearest_even (shr_m mrs') (loc_of_shr_record mrs')) as [|m1|m1]; try lia.
  pose proof (shr_fexp_positive m1 e' loc_Exact ltac:(lia)) as H3.
  destruct (shr_fexp prec emax (Z.pos m1) e' loc_Exact) as [mrs'' e'']. cbn [fst] in H3.
  destruct (shr_m mrs''); try lia.
  now destruct (e'' <=? emax - prec).
Qed.

Lemma binary_round_nonzero (sx : bool) (m : positive) (e : Z) (s : bool) :
  emin prec emax <= e -> binary_round prec emax sx m e <> S754_zero s.
Proof.
  intros He. unfold binary_round.
  pose proof (shl_align_exponent m e (fexp prec emax (Z.pos (digits2_pos m) + e))) as Ha.
  pose proof (fexp_ge_emin (Z.pos (digits2_pos m) + e)) as Hf.
  destruct (shl_align m e _) as [mz ez]. simpl in Ha.
  apply binary_round_aux_nonzero. lia.
Qed.

Lemma SFdiv_core_exponent (m1 e1 m2 e2 : Z) :
  snd (fst (SFdiv_core_binary prec emax m1 e1 m2 e2))
  = Z.min (fexp prec emax (Zdigits2 m1 + e1 - (Zdigits2 m2 + e2))) (e1 - e2).
Proof. unfold SFdiv_core_binary. now destruct (Z.div_eucl _ m2). Qed.

Lemma roundDecimal_exponent (neg : bool) (m e10 : Z) (s : bool) (m' : positive) (e : Z) :
  roundDecimal neg m e10 = S754_finite s m' e -> emin prec emax <= e.
Proof.
  unfold roundDecimal. destruct m as [|p|p]; try discriminate.
  destruct (0 <=? e10).
  - unfold binary_normalize.
    destruct (cond_Zopp neg _); [discriminate| |];
      apply binary_round_exponent; rewrite emin_value; lia.
  - unfold SFdiv.
    pose proof (SFdiv_core_exponent (Z.pos p) 0 (Z.pos (Z.to_pos (10 ^ (- e10)))) 0) as He.
    pose proof (fexp_ge_emin (Zdigits2 (Z.pos p) + 0
                              - (Zdigits2 (Z.pos (Z.to_pos (10 ^ (- e10)))) + 0))) as Hf.
    destruct (SFdiv_core_binary _ _ _ _ _ _) as [[mz ez] lz]. cbn [fst snd] in He.
    intros H%binary_round_aux_exponent. rewrite emin_value in *. lia.
Qed.

Lemma parseRadix_exponent (radix : Z) (t : string) (s : bool) (m : positive) (e : Z) :
  parseRadix radix t = S754_finite s m e -> emin prec emax <= e.
Proof.
  unfold parseRadix. destruct (spanDigits radix t) as [[|d ds] [|c r]]; try discriminate.
  apply roundDecimal_exponent.
Qed.

Lemma parseUnsignedDecimal_exponent (neg : bool) (t : string) (s : bool) (m : positive) (e : Z) :
  parseUnsignedDecimal neg t = S754_finite s m e -> emin prec emax <= e.
Proof.
  unfold parseUnsignedDecimal.
  destruct (String.eqb t "Infinity"); [discriminate|].
  destruct (spanDigits 10 t) as [ip r].
  match goal with |- context [let '(fp, r') := ?x in _] => destruct x as [fp r'] end.
  destruct (ip ++ fp); [discriminate|].
  destruct (parseExponent r'); [|discriminate].
  apply roundDecimal_exponent.
Qed.

Lemma StringToNumber_exponent (t : string) (s : bool) (m : positive) (e : Z) :
  StringToNumber t = S754_finite s m e -> emin prec emax <= e.
Proof.
  unfold StringToNumber. destruct (trim t) as [|c lit]; [discriminate|].
  destruct (radixPrefix (String c lit)) as [[radix digits]|].
  - apply parseRadix_exponent.
  - destruct (Ascii.eqb c "+"); [apply parseUnsignedDecimal_exponent|].
    destruct (Ascii.eqb c "-"); apply parseUnsignedDecimal_exponent.
Qed.

(** The amount of a row is never NaN and never [-0]. *)
Lemma parseNetAmount_summable (cell : value) : summable (parseNetAmount cell).
Proof.
  unfold parseNetAmount, summable. cbn [ToNumber ToBoolean].
  destruct (StringToNumber _) as [z|i| |s m e] eqn:E; cbn [ToBoolean];
    (split; [discriminate|]); try discriminate.
  intros s' m' e' [= -> -> ->]. now apply StringToNumber_exponent in E.
Qed.

Lemma add_summable (x y : spec_float) :
  summable x -> summable y -> summable (add x y).
Proof.
  intros Rx Ry. unfold add.
  destruct x as [[]|[]| |sx mx ex], y as [[]|[]| |sy my ey];
    try (now destruct Rx); try (now destruct Ry); cbn [SFadd];
    try first [exact Rx | exact Ry | split; [discriminate | intros ? ? ? [=]]].
  destruct Rx as [_ Ex], Ry as [_ Ey].
  specialize (Ex _ _ _ eq_refl). specialize (Ey _ _ _ eq_refl).
  unfold binary_normalize.
  destruct (_ + _) as [|p|p].
  - split; [discriminate | intros ? ? ? [=]].
  - split; [apply binary_round_nonzero | intros ? ? ?; apply binary_round_exponent]; lia.
  - split; [apply binary_round_nonzero | intros ? ? ?; apply binary_round_exponent]; lia.
Qed.

Lemma add_posZero_r (x : spec_float) : x <> S754_zero true -> add x posZero = x.
Proof. destruct x as [[]|sx| |sx mx ex]; intros H; try reflexivity. contradiction. Qed.

(** ** The Remittance tool *)

Lemma remitStep_out (m : gmap string string) (st : remitState) (r : row) :
  out (remitStep m st r) = out st ++ pushed m r.
Proof. reflexivity. Qed.

Lemma remit_out (m : gmap string string) (rows : list row) (st : remitState) :
  out (foldl (remitStep m) st rows) = out st ++ flat_map (pushed m) rows.
Proof.
  revert st. induction rows as [|r rows IH]; intros st; cbn [foldl flat_map].
  - now rewrite app_nil_r.
  - now rewrite IH, remitStep_out, app_assoc.
Qed.

Lemma columnSum_snoc (col : remitRow -> value) (rows : list remitRow) (o : remitRow) :
  columnSum col (rows ++ [o]) = add (columnSum col rows) (ToNumber (col o)).
Proof. unfold columnSum. now rewrite foldl_app. Qed.

Lemma remitStep_totals (m : gmap string string) (st : remitState) (r : row) :
  totalsInv st -> totalsInv (remitStep m st r).
Proof.
  intros (Hp & Hx & Rp & Rx). unfold totalsInv, remitStep.
  cbn [out pioneerTotal xtoTotal]. rewrite !columnSum_snoc.
  cbn [PioneerNaturalResources XTO_].
  pose proof (parseNetAmount_summable (get r "Net Amount")) as Ra.
  repeat split.
  - case_bool_decide; cbn [ToNumber].
    + now rewrite Hp.
    + change (StringToNumber "") with posZero. rewrite <- Hp. symmetry.
      apply add_posZero_r, Rp.
  - case_bool_decide; cbn [ToNumber].
    + now rewrite Hx.
    + change (StringToNumber "") with posZero. rewrite <- Hx. symmetry.
      apply add_posZero_r, Rx.
  - case_bool_decide; [now apply add_summable | exact (proj1 Rp)].
  - case_bool_decide; [intros ? ? ?; now apply add_summable | exact (proj2 Rp)].
  - case_bool_decide; [now apply add_summable | exact (proj1 Rx)].
  - case_bool_decide; [intros ? ? ?; now apply add_summable | exact (proj2 Rx)].
Qed.

Lemma remit_totals (m : gmap string string) (rows : list row) (st : remitState) :
  totalsInv st -> totalsInv (foldl (remitStep m) st rows).
Proof.
  revert st. induction rows as [|r rows IH]; intros st H; [exact H|].
  cbn [foldl]. now apply IH, remitStep_totals.
Qed.

Lemma runRemit_ok (axonRows remRows : list row) (w : page) :
  remitInputOk axonRows remRows ->
  let st := foldl (remitStep (buildInvToCustomer axonRows))
                  {| out := []; pioneerTotal := posZero; xtoTotal := posZero |} remRows in
  let total := {| Reference := ""; NetAmount := VString ""; Customer := "TOTAL";
                  PioneerNaturalResources := VNumber (pioneerTotal st);
                  XTO_ := VNumber (xtoTotal st) |} in
  runRemit axonRows remRows w =
  (inr tt, finished w (remitWorkbook
     (out st ++ [total])
     (filter (fun r => Customer r = "NOT FOUND IN AXON") (out st ++ [total])))).
Proof.
  intros (Hax & Href & Hnet) st total. unfold runRemit.
  erewrite bind_ok by reflexivity.
  erewrite bind_ok by reflexivity.
  erewrite bind_ok by reflexivity.
  erewrite bind_ok by (apply checkColumns_ok, Hax).
  assert (match remRows with
          | [] => false
          | r0 :: _ => has r0 "Reference" || has r0 "Reference/Text"
          end = true) as ->.
  { destruct remRows as [|r0 rest]; [exfalso; now apply Hnet|].
    apply orb_true_iff.
    destruct Href as [H|H]; [left|right];
      apply (lacks_not_missing (r0 :: rest)) in H; simpl in H;
      now apply negb_false_iff in H. }
  apply lacks_not_missing in Hnet. rewrite Hnet.
  reflexivity.
Qed.

Lemma pushed_one (m : gmap string string) (r : row) :
  exists o, pushed m r = [o]
    /\ Reference o = normalizeInvoice (if has r "Reference" then get r "Reference"
                                       else get r "Reference/Text")
    /\ NetAmount o = VNumber (parseNetAmount (get r "Net Amount"))
    /\ Customer o = lookupCustomer m (Reference o).
Proof. eexists. repeat split. Qed.

Lemma Forall2_pushed (P : row -> remitRow -> Prop) (m : gmap string string) (rows : list row) :
  (forall r o, pushed m r = [o] -> P r o) -> Forall2 P rows (flat_map (pushed m) rows).
Proof.
  intros H. induction rows as [|r rows IH]; [constructor|].
  cbn [flat_map]. destruct (pushed_one m r) as (o & Ho & _).
  rewrite Ho. constructor; auto.
Qed.

Lemma initial_totals :
  totalsInv {| out := []; pioneerTotal := posZero; xtoTotal := posZero |}.
Proof. repeat split; discriminate. Qed.

(** C4. On every input that passes validation the "Customer Breakdown"
    sheet ends with one more row than the remittance has: its Customer is
    "TOTAL", its Reference and Net Amount are empty, and its
    PioneerNaturalResources and XTO values are the sums, from the first
    row to the last, of those columns over the rows before it, an empty
    cell counting as 0. *)
Theorem runRemit_total_row (axonRows remRows : list row) (w : page) :
  remitInputOk axonRows remRows ->
  exists rows total notFound,
    runRemit axonRows remRows w
    = (inr tt, finished w (remitWorkbook (rows ++ [total]) notFound))
    /\ length rows = length remRows
    /\ Customer total = "TOTAL" /\ Reference total = "" /\ NetAmount total = VString ""
    /\ PioneerNaturalResources total = VNumber (columnSum PioneerNaturalResources rows)
    /\ XTO_ total = VNumber (columnSum XTO_ rows).
Proof.
  intros Hok. eexists _, _, _. split; [apply (runRemit_ok _ _ _ Hok)|].
  pose proof (remit_totals (buildInvToCustomer axonRows) remRows _ initial_totals)
    as (Hp & Hx & _).
  cbn [Customer Reference NetAmount PioneerNaturalResources XTO_].
  rewrite Hp, Hx. repeat split.
  rewrite remit_out. cbn [out app].
  symmetry. apply Forall2_length with (P := fun _ _ => True).
  now apply Forall2_pushed.
Qed.

Lemma runRemit_total_row_witness :
  exists rows total notFound,
    runRemit [axonRow "100.0" "T1" "Pioneer Natural Resources"; axonRow "200" "T2" "XTO Energy"]
             [remittanceRow "100" "1,000"; remittanceRow "200" "2.5";
              remittanceRow "300" "7"; remittanceRow "100" "0.5"] page0
    = (inr tt, finished page0 (remitWorkbook (rows ++ [total]) notFound))
    /\ length rows = 4%nat
    /\ Customer total = "TOTAL" /\ Reference total = "" /\ NetAmount total = VString ""
    /\ PioneerNaturalResources total = VNumber (columnSum PioneerNaturalResources rows)
    /\ XTO_ total = VNumber (columnSum XTO_ rows).
Proof.
  apply (runRemit_total_row
           [axonRow "100.0" "T1" "Pioneer Natural Resources"; axonRow "200" "T2" "XTO Energy"]
           [remittanceRow "100" "1,000"; remittanceRow "200" "2.5";
            remittanceRow "300" "7"; remittanceRow "100" "0.5"] page0).
  split; [repeat constructor; present | split; [left; present | present]].
Defined.

(** The example of section 8 of the specification, with two more rows. *)
Example runRemit_ex :
  runRemit [axonRow "100.0" "T1" "Pioneer Natural Resources"; axonRow "200" "T2" "XTO Energy"]
           [remittanceRow "100" "1,000"; remittanceRow "300" "7"; remittanceRow "100" "0.5"]
           page0
  = (inr tt, finished page0 (remitWorkbook
       [ {| Reference := "100"; NetAmount := VNumber (ofZ 1000);
            Customer := "Pioneer Natural Resources";
            PioneerNaturalResources := VNumber (ofZ 1000); XTO_ := VString "" |};
         {| Reference := "300"; NetAmount := VNumber (ofZ 7);
            Customer := "NOT FOUND IN AXON";
            PioneerNaturalResources := VString ""; XTO_ := VString "" |};
         {| Reference := "100"; NetAmount := VNumber (StringToNumber "0.5");
            Customer := "Pioneer Natural Resources";
            PioneerNaturalResources := VNumber (StringToNumber "0.5"); XTO_ := VString "" |};
         {| Reference := ""; NetAmount := VString ""; Customer := "TOTAL";
            PioneerNaturalResources := VNumber (StringToNumber "1000.5");
            XTO_ := VNumber posZero |} ]
       [ {| Reference := "300"; NetAmount := VNumber (ofZ 7);
            Customer := "NOT FOUND IN AXON";
            PioneerNaturalResources := VString ""; XTO_ := VString "" |} ])).
Proof. vm_compute. reflexivity. Qed.

Lemma parseNetAmount_amountOf (cell : value) :
  parseNetAmount cell = amountOf (StringToNumber (replaceAll (ToString cell) "," "")).
Proof.
  unfold parseNetAmount. cbn [ToNumber].
  now destruct (StringToNumber _) as [z|i| |s m e].
Qed.

(** C8. On every input that passes validation the run ends without an
    error, and the Net Amount of each output row is the number that the
    cell, made a string and with its commas removed, converts to; when
    that conversion gives no number the amount is 0. *)
Theorem runRemit_net_amount (axonRows remRows : list row) (w : page) :
  remitInputOk axonRows remRows ->
  exists rows total notFound,
    runRemit axonRows remRows w
    = (inr tt, finished w (remitWorkbook (rows ++ [total]) notFound))
    /\ Forall2 (fun r o =>
         let n := StringToNumber (replaceAll (ToString (get r "Net Amount")) "," "") in
         NetAmount o = VNumber (amountOf n)
         /\ (n = NaN -> NetAmount o = VNumber posZero)
         /\ (n <> NaN -> n <> S754_zero true -> NetAmount o = VNumber n))
         remRows rows.
Proof.
  intros Hok. eexists _, _, _. split; [apply (runRemit_ok _ _ _ Hok)|].
  rewrite remit_out. cbn [out app]. apply Forall2_pushed.
  intros r o Ho. cbv zeta.
  destruct (pushed_one (buildInvToCustomer axonRows) r) as (o' & Ho' & _ & Hn & _).
  rewrite Ho in Ho'. injection Ho' as <-.
  rewrite Hn, parseNetAmount_amountOf.
  destruct (StringToNumber _) as [[]|i| |s m e]; repeat split; try reflexivity;
    intros; try discriminate; contradiction.
Qed.

Lemma runRemit_net_amount_witness :
  exists rows total notFound,
    runRemit [axonRow "100" "T1" "Pioneer Natural Resources"]
             [remittanceRow "100" "1,000"; remittanceRow "100" "n/a"] page0
    = (inr tt, finished page0 (remitWorkbook (rows ++ [total]) notFound))
    /\ Forall2 (fun r o =>
         let n := StringToNumber (replaceAll (ToString (get r "Net Amount")) "," "") in
         NetAmount o = VNumber (amountOf n)
         /\ (n = NaN -> NetAmount o = VNumber posZero)
         /\ (n <> NaN -> n <> S754_zero true -> NetAmount o = VNumber n))
         [remittanceRow "100" "1,000"; remittanceRow "100" "n/a"] rows.
Proof.
  apply (runRemit_net_amount [axonRow "100" "T1" "Pioneer Natural Resources"]
           [remittanceRow "100" "1,000"; remittanceRow "100" "n/a"] page0).
  split; [repeat constructor; present | split; [left; present | present]].
Defined.

Example parseNetAmount_ex :
  parseNetAmount (VString "1,000") = ofZ 1000
  /\ parseNetAmount (VNumber (ofZ 1000)) = ofZ 1000
  /\ parseNetAmount (VString "n/a") = posZero
  /\ parseNetAmount (VString "") = posZero
  /\ parseNetAmount VUndefined = posZero
  /\ parseNetAmount (VString "-0") = posZero.
Proof. vm_compute. repeat split. Qed.

(** *** The Invoice-to-Customer map *)

Lemma newMap_lookup (entries : list (string * string)) (m0 : gmap string string) (k : string) :
  foldl (fun m kv => <[kv.1 := kv.2]> m) m0 entries !! k
  = foldl (fun acc kv => if decide (kv.1 = k) then Some kv.2 else acc) (m0 !! k) entries.
Proof.
  revert m0. induction entries as [|[k1 v1] entries IH]; intros m0; [reflexivity|].
  cbn [foldl fst snd]. now rewrite IH, lookup_insert.
Qed.

Lemma lastName_filtered (axonRows : list row) (k : string) (acc : option string) :
  k <> "" ->
  foldl (fun acc kv => if decide (kv.1 = k) then Some kv.2 else acc) acc
        (filter (fun kv => ToBoolean (VString kv.1))
                (map (fun r => (normalizeInvoice (get r "Invoice#"),
                                trim (ToString (get r "Name")))) axonRows))
  = foldl (fun acc r => if decide (normalizeInvoice (get r "Invoice#") = k)
                        then Some (trim (ToString (get r "Name"))) else acc)
          acc axonRows.
Proof.
  intros Hk. revert acc. induction axonRows as [|r rows IH]; intros acc; [reflexivity|].
  cbn [map foldl]. rewrite filter_cons. cbn [fst].
  destruct (decide (ToBoolean (VString (normalizeInvoice (get r "Invoice#"))))) as [Ht|Hf].
  - cbn [foldl fst snd]. apply IH.
  - rewrite IH. f_equal. rewrite decide_False; [reflexivity|].
    intros E. apply Hf, ToBoolean_VString. now rewrite E.
Qed.

Lemma no_empty_key (axonRows : list row) (acc : option string) :
  foldl (fun acc kv => if decide (kv.1 = "") then Some kv.2 else acc) acc
        (filter (fun kv => ToBoolean (VString kv.1))
                (map (fun r => (normalizeInvoice (get r "Invoice#"),
                                trim (ToString (get r "Name")))) axonRows))
  = acc.
Proof.
  revert acc. induction axonRows as [|r rows IH]; intros acc; [reflexivity|].
  cbn [map]. rewrite filter_cons. cbn [fst].
  destruct (decide (ToBoolean (VString (normalizeInvoice (get r "Invoice#"))))) as [Ht|Hf];
    [|apply IH].
  cbn [foldl fst snd]. rewrite IH. apply decide_False. now apply ToBoolean_VString.
Qed.

(** X1. The map holds, for each nonempty normalised Invoice#, the trimmed
    Name of the last AXON row with that Invoice#; the empty identifier is
    not a key. *)
Lemma buildInvToCustomer_lookup (axonRows : list row) (k : string) :
  buildInvToCustomer axonRows !! k = if decide (k = "") then None else lastName axonRows k.
Proof.
  unfold buildInvToCustomer, newMap. rewrite newMap_lookup, lookup_empty.
  destruct (decide (k = "")) as [->|Hk].
  - apply no_empty_key.
  - now apply lastName_filtered.
Qed.

Lemma lookupCustomer_cases (m : gmap string string) (inv : string) :
  lookupCustomer m inv
  = match m !! inv with
    | Some name => if decide (name = "") then "NOT FOUND IN AXON" else name
    | None => "NOT FOUND IN AXON"
    end.
Proof.
  unfold lookupCustomer. destruct (m !! inv) as [name|]; [|reflexivity].
  cbn [ToBoolean]. destruct (String.eqb_spec name ""); now case_decide.
Qed.

(** X2. The Customer of every output row: the mapped name when the normalised
    reference is in the map with a name that is not empty, and
    "NOT FOUND IN AXON" when it is not in the map. *)
Theorem runRemit_customer (axonRows remRows : list row) (w : page) :
  remitInputOk axonRows remRows ->
  exists rows total notFound,
    runRemit axonRows remRows w
    = (inr tt, finished w (remitWorkbook (rows ++ [total]) notFound))
    /\ Forall2 (fun r o =>
         Reference o = normalizeInvoice (if has r "Reference" then get r "Reference"
                                         else get r "Reference/Text")
         /\ (forall name, buildInvToCustomer axonRows !! Reference o = Some name ->
                          name <> "" -> Customer o = name)
         /\ (buildInvToCustomer axonRows !! Reference o = None ->
             Customer o = "NOT FOUND IN AXON"))
         remRows rows.
Proof.
  intros Hok. eexists _, _, _. split; [apply (runRemit_ok _ _ _ Hok)|].
  rewrite remit_out. cbn [out app]. apply Forall2_pushed.
  intros r o Ho. destruct (pushed_one (buildInvToCustomer axonRows) r) as (o' & Ho' & Hr & _ & Hc).
  rewrite Ho in Ho'. injection Ho' as <-.
  split; [exact Hr|]. rewrite Hc, lookupCustomer_cases.
  split; [intros name -> Hn; now rewrite decide_False | now intros ->].
Qed.

Lemma runRemit_customer_witness :
  exists rows total notFound,
    runRemit [axonRow "100" "T1" "Acme"] [remittanceRow "100" "5"] page0
    = (inr tt, finished page0 (remitWorkbook (rows ++ [total]) notFound))
    /\ Forall2 (fun r o =>
         Reference o = normalizeInvoice (if has r "Reference" then get r "Reference"
                                         else get r "Reference/Text")
         /\ (forall name,
               buildInvToCustomer [axonRow "100" "T1" "Acme"] !! Reference o = Some name ->
               name <> "" -> Customer o = name)
         /\ (buildInvToCustomer [axonRow "100" "T1" "Acme"] !! Reference o = None ->
             Customer o = "NOT FOUND IN AXON"))
         [remittanceRow "100" "5"] rows.
Proof.
  apply (runRemit_customer [axonRow "100" "T1" "Acme"] [remittanceRow "100" "5"] page0).
  split; [repeat constructor; present | split; [left; present | present]].
Defined.

(** C3 on an AXON row with a blank Name: invoice 100 is in the map, with
    the empty name, and the remittance row that refers to it is reported
    as "NOT FOUND IN AXON", also on the "Not Found in AXON" sheet. *)
Theorem runRemit_blank_name :
  buildInvToCustomer [axonRow "100" "T1" ""] !! "100" = Some ""
  /\ runRemit [axonRow "100" "T1" ""] [remittanceRow "100" "5"] page0
     = (inr tt, finished page0 (remitWorkbook
          [ {| Reference := "100"; NetAmount := VNumber (ofZ 5);
               Customer := "NOT FOUND IN AXON";
               PioneerNaturalResources := VString ""; XTO_ := VString "" |};
            {| Reference := ""; NetAmount := VString ""; Customer := "TOTAL";
               PioneerNaturalResources := VNumber posZero; XTO_ := VNumber posZero |} ]
          [ {| Reference := "100"; NetAmount := VNumber (ofZ 5);
               Customer := "NOT FOUND IN AXON";
               PioneerNaturalResources := VString ""; XTO_ := VString "" |} ])).
Proof. split; vm_compute; reflexivity. Qed.

(** X3. The "Not Found in AXON" sheet holds the output rows whose Customer is
    "NOT FOUND IN AXON", in order; the TOTAL row is not one of them. *)
Theorem runRemit_not_found_sheet (axonRows remRows : list row) (w : page) :
  remitInputOk axonRows remRows ->
  exists rows total,
    runRemit axonRows remRows w
    = (inr tt, finished w (remitWorkbook (rows ++ [total])
         (filter (fun o => Customer o = "NOT FOUND IN AXON") rows)))
    /\ length rows = length remRows.
Proof.
  intros Hok. eexists _, _. rewrite (runRemit_ok _ _ _ Hok).
  rewrite filter_app, filter_cons_False, filter_nil, app_nil_r by discriminate.
  split; [reflexivity|].
  rewrite remit_out. cbn [out app].
  symmetry. apply Forall2_length with (P := fun _ _ => True).
  now apply Forall2_pushed.
Qed.

Lemma runRemit_not_found_sheet_witness :
  exists rows total,
    runRemit [axonRow "100" "T1" "Acme"] [remittanceRow "100" "5"; remittanceRow "7" "1"] page0
    = (inr tt, finished page0 (remitWorkbook (rows ++ [total])
         (filter (fun o => Customer o = "NOT FOUND IN AXON") rows)))
    /\ length rows = 2%nat.
Proof.
  apply (runRemit_not_found_sheet [axonRow "100" "T1" "Acme"]
           [remittanceRow "100" "5"; remittanceRow "7" "1"] page0).
  split; [repeat constructor; present | split; [left; present | present]].
Defined.

(** X4. The first five columns of an "Invoice Status" row are the cells of
    the AXON row, as they are. *)
Theorem runApproved_carries_columns (axonRows oiRows : list row) (w : page) :
  approvedInputOk axonRows oiRows ->
  exists summary out,
    runApproved axonRows oiRows w = (inr tt, finished w (approvedWorkbook summary out))
    /\ Forall2 (fun r o =>
         sInvoice o = get r "Invoice#" /\ sTickets o = get r "Tickets"
         /\ sDate o = get r "Date" /\ sName o = get r "Name"
         /\ sBalanceDue o = get r "Balance Due") axonRows out.
Proof.
  intros Hok. eexists _, _. split; [apply (runApproved_ok _ _ _ Hok)|].
  apply Forall2_fmap_r, Forall_Forall2_diag, Forall_forall.
  intros r _. repeat split.
Qed.

Lemma runApproved_carries_columns_witness :
  exists summary out,
    runApproved [axonRow "A-1" "T1,T2" "Acme"] [oiRow "T1"] page0
    = (inr tt, finished page0 (approvedWorkbook summary out))
    /\ Forall2 (fun r o =>
         sInvoice o = get r "Invoice#" /\ sTickets o = get r "Tickets"
         /\ sDate o = get r "Date" /\ sName o = get r "Name"
         /\ sBalanceDue o = get r "Balance Due") [axonRow "A-1" "T1,T2" "Acme"] out.
Proof.
  apply runApproved_carries_columns.
  split; [repeat constructor; present | present].
Defined.

(** ** More on trimming and splitting *)

Lemma trimEnd_idempotent (s : string) : trimEnd (trimEnd s) = trimEnd s.
Proof.
  induction s as [|c s IH]; [reflexivity|].
  cbn [trimEnd]. destruct (trimEnd s) as [|a r] eqn:E.
  - destruct (isWhiteSpace c) eqn:Hc; [reflexivity|]. cbn [trimEnd]. now rewrite Hc.
  - change (trimEnd (String c (String a r))) with
      (match trimEnd (String a r) with
       | EmptyString => if isWhiteSpace c then EmptyString else String c EmptyString
       | x => String c x
       end).
    now rewrite IH.
Qed.

Lemma trimStart_trimEnd (s : string) : trimStart (trimEnd s) = trimEnd (trimStart s).
Proof.
  induction s as [|c s IH]; [reflexivity|].
  cbn [trimStart]. destruct (isWhiteSpace c) eqn:Hc.
  - cbn [trimEnd]. rewrite <- IH. destruct (trimEnd s) as [|a r]; rewrite ?Hc; [reflexivity|].
    cbn [trimStart]. now rewrite Hc.
  - cbn [trimEnd]. destruct (trimEnd s) as [|a r]; rewrite ?Hc; cbn [trimStart]; now rewrite Hc.
Qed.

Lemma trimStart_idempotent (s : string) : trimStart (trimStart s) = trimStart s.
Proof.
  induction s as [|c s IH]; [reflexivity|].
  cbn [trimStart]. destruct (isWhiteSpace c) eqn:Hc; [exact IH|].
  cbn [trimStart]. now rewrite Hc.
Qed.

Lemma trim_idempotent (s : string) : trim (trim s) = trim s.
Proof.
  unfold trim. now rewrite trimStart_trimEnd, trimStart_idempotent, trimEnd_idempotent.
Qed.

Lemma trimEnd_snoc (s : string) (c : ascii) :
  isWhiteSpace c = true -> trimEnd (s +:+ String c "") = trimEnd s.
Proof.
  intros Hc. induction s as [|a s IH].
  - rewrite append_nil_l. cbn [trimEnd]. now rewrite Hc.
  - change (String a s +:+ String c "") with (String a (s +:+ String c "")).
    cbn [trimEnd]. now rewrite IH.
Qed.

Lemma trim_snoc (s : string) (c : ascii) :
  isWhiteSpace c = true -> trim (s +:+ String c "") = trim s.
Proof.
  intros Hc. unfold trim. now rewrite <- !trimStart_trimEnd, trimEnd_snoc.
Qed.

Lemma trim_cons (s : string) (c : ascii) :
  isWhiteSpace c = true -> trim (String c s) = trim s.
Proof. intros Hc. unfold trim. cbn [trimStart]. now rewrite Hc. Qed.

(** What [trimEnd] removes is white space. *)
Lemma trimEnd_decompose (s : string) :
  exists w, s = trimEnd s +:+ w /\ blank w = true.
Proof.
  induction s as [|c s (w & Hs & Hw)]; [now exists ""|].
  cbn [trimEnd]. destruct (trimEnd s) as [|a r] eqn:E.
  - rewrite append_nil_l in Hs. destruct (isWhiteSpace c) eqn:Hc.
    + exists (String c w). rewrite append_nil_l. split; [now rewrite Hs at 1|].
      cbn [blank]. now rewrite Hc.
    + exists w. split; [|exact Hw]. now rewrite Hs at 1.
  - exists w. split; [|exact Hw].
    change (String c (String a r) +:+ w) with (String c (String a r +:+ w)).
    now rewrite <- Hs.
Qed.

Lemma split_nonempty (s : string) (sep : ascii) : split s sep <> [].
Proof.
  destruct s as [|c s]; [discriminate|].
  cbn [split]. destruct (Ascii.eqb c sep); [discriminate|].
  now destruct (split s sep).
Qed.

(** The pieces of a split do not contain the separator. *)
Lemma split_pieces (s : string) (sep : ascii) :
  Forall (fun p => occurs sep p = false) (split s sep).
Proof.
  induction s as [|c s IH]; [now repeat constructor|].
  cbn [split]. destruct (Ascii.eqb c sep) eqn:Hc; [now constructor|].
  destruct (split s sep) as [|hd tl]; [now repeat constructor; cbn; rewrite Hc|].
  inversion IH as [|? ? Hhd Htl]; subst. constructor; [|exact Htl].
  cbn [occurs]. now rewrite Hc, Hhd.
Qed.

(** Appending a character that is not the separator extends the last piece. *)
Lemma split_snoc (s : string) (c sep : ascii) :
  Ascii.eqb c sep = false ->
  exists init last,
    split s sep = init ++ [last]
    /\ split (s +:+ String c "") sep = init ++ [last +:+ String c ""].
Proof.
  intros Hc. induction s as [|a s (init & last & Hs & Hs')].
  - exists [], "". split; [reflexivity|]. rewrite !append_nil_l. cbn [split]. now rewrite Hc.
  - change (String a s +:+ String c "") with (String a (s +:+ String c "")).
    cbn [split]. rewrite Hs, Hs'. destruct (Ascii.eqb a sep).
    + now exists ("" :: init), last.
    + destruct init as [|h t]; cbn [app].
      * now exists [], (String a last).
      * now exists (String a h :: t), last.
Qed.

Lemma isWhiteSpace_not_comma (c : ascii) : isWhiteSpace c = true -> Ascii.eqb c "," = false.
Proof. intros Hc. destruct (Ascii.eqb_spec c ","); [now subst|reflexivity]. Qed.

Lemma tokensOf_cons (c : ascii) (s : string) :
  isWhiteSpace c = true -> tokensOf (String c s) = tokensOf s.
Proof.
  intros Hc. unfold tokensOf. cbn [split]. rewrite (isWhiteSpace_not_comma c Hc).
  pose proof (split_nonempty s ",") as Hne.
  destruct (split s ",") as [|hd tl]; [contradiction|].
  cbn [map]. now rewrite trim_cons.
Qed.

Lemma tokensOf_snoc (c : ascii) (s : string) :
  isWhiteSpace c = true -> tokensOf (s +:+ String c "") = tokensOf s.
Proof.
  intros Hc. unfold tokensOf.
  destruct (split_snoc s c "," (isWhiteSpace_not_comma c Hc)) as (init & last & -> & ->).
  change (map trim (?l ++ [?x])) with (trim <$> (l ++ [x])).
  rewrite !fmap_app. cbn [fmap list_fmap]. now rewrite trim_snoc.
Qed.

Lemma tokensOf_trimStart (s : string) : tokensOf (trimStart s) = tokensOf s.
Proof.
  induction s as [|c s IH]; [reflexivity|].
  cbn [trimStart]. destruct (isWhiteSpace c) eqn:Hc; [|reflexivity].
  now rewrite IH, tokensOf_cons.
Qed.

Lemma append_assoc (s t u : string) : (s +:+ t) +:+ u = s +:+ (t +:+ u).
Proof.
  induction s as [|c s IH]; [reflexivity|].
  change (String c ((s +:+ t) +:+ u) = String c (s +:+ (t +:+ u))). now rewrite IH.
Qed.

Lemma append_nil_r (s : string) : s +:+ "" = s.
Proof.
  induction s as [|c s IH]; [reflexivity|].
  change (String c (s +:+ "") = String c s). now rewrite IH.
Qed.

Lemma tokensOf_app_blank (s w : string) : blank w = true -> tokensOf (s +:+ w) = tokensOf s.
Proof.
  revert s. induction w as [|c w IH]; intros s Hw.
  - now rewrite append_nil_r.
  - cbn [blank] in Hw. apply andb_prop in Hw as [Hc Hw].
    change (String c w) with (String c "" +:+ w).
    rewrite <- append_assoc, IH by assumption. now apply tokensOf_snoc.
Qed.

Lemma tokensOf_trim (s : string) : tokensOf (trim s) = tokensOf s.
Proof.
  unfold trim. destruct (trimEnd_decompose (trimStart s)) as (w & Hs & Hw).
  rewrite <- (tokensOf_trimStart s). rewrite Hs at 2. now rewrite tokensOf_app_blank.
Qed.

(** ** splitAxonTickets *)

Lemma splitAxonTickets_trimmed (cell : value) :
  cell <> VNull -> cell <> VUndefined ->
  splitAxonTickets cell = tokensOf (trim (ToString cell)).
Proof.
  intros Hn Hu. unfold splitAxonTickets.
  rewrite bool_decide_eq_false_2 by now intros [|]. cbv zeta. cbn [ToBoolean].
  destruct (String.eqb_spec (trim (ToString cell)) "") as [->|_]; [reflexivity|].
  cbn [negb]. unfold tokensOf. apply list_filter_iff. intros p. apply ToBoolean_VString.
Qed.

(** X5. [splitAxonTickets] returns no token for null and undefined, and
    otherwise the tokens of the string form of the cell: the trimming of
    the whole cell and the test for an empty cell change nothing. *)
Theorem splitAxonTickets_tokens (cell : value) :
  splitAxonTickets cell
  = if bool_decide (cell = VNull \/ cell = VUndefined) then []
    else tokensOf (ToString cell).
Proof.
  case_bool_decide as H.
  - unfold splitAxonTickets. now rewrite bool_decide_eq_true_2.
  - rewrite splitAxonTickets_trimmed by (intros ->; apply H; auto).
    apply tokensOf_trim.
Qed.

Lemma tokensOf_shape (s : string) : Forall token (tokensOf s).
Proof.
  unfold tokensOf. apply Forall_forall. intros t Ht.
  apply list_elem_of_filter in Ht as [Hne Ht].
  apply list_elem_of_fmap in Ht as (p & -> & Hp).
  pose proof (split_pieces s ",") as Hall. rewrite Forall_forall in Hall.
  specialize (Hall p Hp). repeat split; [exact Hne| |apply trim_idempotent].
  unfold trim. now apply occurs_trimEnd, occurs_trimStart.
Qed.

(** X6. Every token [splitAxonTickets] returns is not empty, has no comma
    in it and no white space at either end. *)
Theorem splitAxonTickets_shape (cell : value) : Forall token (splitAxonTickets cell).
Proof.
  destruct (decide (cell = VNull \/ cell = VUndefined)) as [H|H].
  - unfold splitAxonTickets. rewrite bool_decide_eq_true_2 by exact H. constructor.
  - rewrite splitAxonTickets_trimmed by (intros ->; apply H; auto). apply tokensOf_shape.
Qed.

Lemma split_concat (ts : list string) :
  ts <> [] -> Forall (fun t => occurs "," t = false) ts ->
  split (String.concat "," ts) "," = ts.
Proof.
  intros Hne Hall. induction Hall as [|t ts Ht Hts IH]; [contradiction|].
  destruct ts as [|u ts].
  - now apply split_no_separator.
  - change (String.concat "," (t :: u :: ts))
      with (t +:+ String "," (String.concat "," (u :: ts))).
    rewrite split_app_separator by assumption. now rewrite IH.
Qed.

Lemma map_id_on {A} (f : A -> A) (l : list A) :
  Forall (fun x => f x = x) l -> map f l = l.
Proof. induction 1 as [|x l Hx _ IH]; [reflexivity|]. cbn. now rewrite Hx, IH. Qed.

Lemma filter_all {A} (P : A -> Prop) `{forall x, Decision (P x)} (l : list A) :
  Forall P l -> filter P l = l.
Proof.
  induction 1 as [|x l Hx _ IH]; [reflexivity|]. now rewrite filter_cons_True, IH.
Qed.

(** X7. Joining tokens with commas and splitting the cell again gives
    the tokens back, in order. *)
Theorem splitAxonTickets_join (ts : list string) :
  Forall token ts -> splitAxonTickets (VString (String.concat "," ts)) = ts.
Proof.
  intros Hts. rewrite splitAxonTickets_trimmed, tokensOf_trim by discriminate.
  cbn [ToString]. destruct ts as [|t ts]; [reflexivity|]. unfold tokensOf.
  rewrite split_concat; [|discriminate|].
  - rewrite map_id_on by (eapply Forall_impl; [exact Hts|]; now intros ? (_ & _ & ?)).
    apply filter_all. eapply Forall_impl; [exact Hts|]. now intros ? (? & _).
  - eapply Forall_impl; [exact Hts|]. now intros ? (_ & ? & _).
Qed.

Lemma splitAxonTickets_join_witness :
  splitAxonTickets (VString (String.concat "," ["T1"; "A B"; "7.0"])) = ["T1"; "A B"; "7.0"].
Proof.
  apply (splitAxonTickets_join ["T1"; "A B"; "7.0"]).
  repeat constructor; discriminate.
Defined.

(** ** More on the normalisers *)

Lemma length_removeCommasSpaces (s : string) :
  (String.length (removeCommasSpaces s) <= String.length s)%nat.
Proof.
  induction s as [|c s IH]; [reflexivity|].
  cbn [removeCommasSpaces]. case_bool_decide; simpl; lia.
Qed.

(** X8. A normalised identifier never contains a comma or a space, and
    is never longer than the string form of the value it comes from. *)
Theorem normalize_output (x : value) :
  occurs "," (normalizeTicket x) = false /\ occurs " " (normalizeTicket x) = false
  /\ occurs "," (normalizeInvoice x) = false /\ occurs " " (normalizeInvoice x) = false
  /\ (String.length (normalizeTicket x) <= String.length (ToString x))%nat
  /\ (String.length (normalizeInvoice x) <= String.length (ToString x))%nat.
Proof.
  change (normalizeInvoice x) with (normalizeTicket x).
  destruct (occurs_normalizeTicket x) as [Hc Hs].
  assert (String.length (normalizeTicket x) <= String.length (ToString x))%nat as Hl.
  { destruct x; [apply Nat.le_0_l..| | |]; rewrite normalizeTicket_unfold by discriminate.
    all: etransitivity; [apply length_removeCommasSpaces|].
    all: etransitivity; [apply length_dropDotZero_le|].
    all: unfold trim; etransitivity; [apply length_trimEnd_le | apply length_trimStart_le]. }
  repeat split; assumption.
Qed.

(** X9. The strings normalisation leaves as they are: those without
    comma and space, without white space at either end, and not ending in
    ".0". *)
Theorem normalize_fixed_points (t : string) :
  normalizeTicket (VString t) = t
  <-> occurs "," t = false /\ occurs " " t = false /\ trim t = t /\ endsWith t ".0" = false.
Proof.
  split.
  - intros H. destruct (occurs_normalizeTicket (VString t)) as [Hc Hs].
    rewrite H in Hc, Hs. rewrite normalizeTicket_clean in H by assumption.
    apply dropDotZero_trim_fixed in H as [He Ht]. auto.
  - intros (Hc & Hs & Ht & He). rewrite normalizeTicket_clean by assumption.
    now apply dropDotZero_trim_fixed.
Qed.

(** ** More on the Approved tool *)

Lemma filter_length_all {A} (P : A -> Prop) `{forall x, Decision (P x)} (l : list A) :
  length (filter P l) = length l <-> Forall P l.
Proof.
  induction l as [|x l IH]; [now split; constructor|].
  rewrite filter_cons. pose proof (length_filter P l) as Hle.
  destruct (decide (P x)) as [Hx|Hx]; simpl.
  - rewrite Forall_cons. split; [intros [= E]; split; [exact Hx | now apply IH] |].
    intros [_ Hl]. f_equal. now apply IH.
  - split; [lia | intros Hl; now inversion Hl].
Qed.

Lemma filter_length_none {A} (P : A -> Prop) `{forall x, Decision (P x)} (l : list A) :
  length (filter P l) = 0%nat <-> Forall (fun x => ~ P x) l.
Proof.
  induction l as [|x l IH]; [now split; constructor|].
  rewrite filter_cons. destruct (decide (P x)) as [Hx|Hx]; simpl.
  - split; [discriminate | intros Hl; now inversion Hl].
  - rewrite Forall_cons. rewrite IH. tauto.
Qed.

Lemma statusDecision_ready (total matched : nat) :
  statusDecision total matched = "Ready to Flip" <-> (0 < total /\ matched = total)%nat.
Proof. unfold statusDecision. repeat case_decide; split; try discriminate; tauto. Qed.

Lemma statusDecision_notReady (total matched : nat) :
  (matched <= total)%nat ->
  statusDecision total matched = "Not Ready" <-> matched = 0%nat.
Proof.
  intros Hle. unfold statusDecision.
  repeat case_decide; split; intros E; try discriminate E; try reflexivity; try lia; exfalso; lia.
Qed.

Lemma statusDecision_pending (total matched : nat) :
  (matched <= total)%nat ->
  statusDecision total matched = "Pending" <-> (0 < matched /\ matched < total)%nat.
Proof.
  intros Hle. unfold statusDecision.
  repeat case_decide; split; intros E; try discriminate E; try reflexivity; try lia; exfalso; lia.
Qed.

(** X10. What the three statuses mean for the tickets of a row: "Ready to
    Flip" when the row has a ticket and every ticket is open, "Not Ready"
    when no ticket of the row is open, "Pending" when some ticket is open
    and some ticket is not. *)
Theorem runApproved_status_meaning (axonRows oiRows : list row) (w : page) :
  approvedInputOk axonRows oiRows ->
  exists summary out,
    runApproved axonRows oiRows w = (inr tt, finished w (approvedWorkbook summary out))
    /\ Forall2 (fun r o =>
         let tickets := ticketTokens (get r "Tickets") in
         let open := fun t => t ∈ openTickets oiRows in
         (Status o = "Ready to Flip" <-> tickets <> [] /\ Forall open tickets)
         /\ (Status o = "Not Ready" <-> Forall (fun t => ~ open t) tickets)
         /\ (Status o = "Pending" <-> Exists open tickets /\ Exists (fun t => ~ open t) tickets))
         axonRows out.
Proof.
  intros Hok. eexists _, _. split; [apply (runApproved_ok _ _ _ Hok)|].
  apply Forall2_fmap_r, Forall_Forall2_diag, Forall_forall.
  intros r _. unfold compose. cbv beta zeta. rewrite approvedRow_status.
  unfold rowTotal, rowMatched.
  generalize (ticketTokens (get r "Tickets")) as tickets.
  generalize (openTickets oiRows) as opened. intros opened tickets.
  pose proof (length_filter (fun t => t ∈ opened) tickets) as Hle.
  pose proof (filter_length_all (fun t => t ∈ opened) tickets) as Hall.
  pose proof (filter_length_none (fun t => t ∈ opened) tickets) as Hnone.
  cbv beta in Hnone.
  split; [|split].
  - rewrite statusDecision_ready, <- Hall.
    assert ((0 < length tickets)%nat <-> tickets <> []) as ->; [|reflexivity].
    clear. destruct tickets; simpl; split; intros; try lia; congruence.
  - now rewrite statusDecision_notReady, Hnone.
  - rewrite statusDecision_pending by assumption.
    assert (Exists (fun t => t ∈ opened) tickets
            <-> length (filter (fun t => t ∈ opened) tickets) <> 0%nat) as ->.
    { rewrite Hnone. split.
      - intros (t & Ht & Hot)%Exists_exists Hf. rewrite Forall_forall in Hf. now apply (Hf t).
      - intros Hn. apply not_Forall_Exists in Hn; [|intros ?; apply _].
        eapply Exists_impl; [exact Hn|]. intros t Ht. simpl in Ht.
        destruct (decide (t ∈ opened)); tauto. }
    assert (Exists (fun t => t ∉ opened) tickets
            <-> length (filter (fun t => t ∈ opened) tickets) <> length tickets) as ->.
    { rewrite Hall. split.
      - intros (t & Ht & Hot)%Exists_exists Hf. rewrite Forall_forall in Hf. now apply Hot, Hf.
      - intros Hn. apply not_Forall_Exists in Hn; [exact Hn | intros ?; apply _]. }
    lia.
Qed.

Lemma runApproved_status_meaning_witness :
  exists summary out,
    runApproved [axonRow "A-1" "T1,T2" "Acme"] [oiRow "T1"] page0
    = (inr tt, finished page0 (approvedWorkbook summary out))
    /\ Forall2 (fun r o =>
         let tickets := ticketTokens (get r "Tickets") in
         let open := fun t => t ∈ openTickets [oiRow "T1"] in
         (Status o = "Ready to Flip" <-> tickets <> [] /\ Forall open tickets)
         /\ (Status o = "Not Ready" <-> Forall (fun t => ~ open t) tickets)
         /\ (Status o = "Pending" <-> Exists open tickets /\ Exists (fun t => ~ open t) tickets))
         [axonRow "A-1" "T1,T2" "Acme"] out.
Proof.
  apply (runApproved_status_meaning [axonRow "A-1" "T1,T2" "Acme"] [oiRow "T1"] page0).
  split; [repeat constructor; present | present].
Defined.

Lemma openSet_elem (oiRows : list row) (t : string) :
  t ∈ newSet (filter (fun t => ToBoolean (VString t))
                     (map (fun r => normalizeTicket (get r "Ticket")) oiRows))
  <-> t ∈ openTickets oiRows.
Proof.
  unfold newSet, openTickets. rewrite elem_of_list_to_set.
  now rewrite (list_filter_iff (fun t => ToBoolean (VString t)) (fun t => t <> ""))
    by apply ToBoolean_VString.
Qed.

(** X11. The OpenInvoice rows matter only through the set of their
    nonempty normalised tickets: two OpenInvoice files with the same
    tickets, in any order and any number of times, give the same
    workbook. *)
Theorem runApproved_open_set (axonRows oiRows oiRows' : list row) (w : page) :
  approvedInputOk axonRows oiRows -> approvedInputOk axonRows oiRows' ->
  (forall t, t ∈ openTickets oiRows <-> t ∈ openTickets oiRows') ->
  runApproved axonRows oiRows w = runApproved axonRows oiRows' w.
Proof.
  intros Hok Hok' Hsame.
  rewrite (runApproved_ok _ _ _ Hok), (runApproved_ok _ _ _ Hok'). cbv zeta.
  assert (newSet (filter (fun t => ToBoolean (VString t))
                         (map (fun r => normalizeTicket (get r "Ticket")) oiRows))
          = newSet (filter (fun t => ToBoolean (VString t))
                           (map (fun r => normalizeTicket (get r "Ticket")) oiRows')))
    as ->; [|reflexivity].
  apply set_eq. intros t. now rewrite !openSet_elem.
Qed.

Lemma runApproved_open_set_witness :
  runApproved [axonRow "A-1" "T1,T2" "Acme"] [oiRow "T1"; oiRow "T2"] page0
  = runApproved [axonRow "A-1" "T1,T2" "Acme"] [oiRow "T2.0"; oiRow " T1"; oiRow "T2"; oiRow ""]
                page0.
Proof.
  apply runApproved_open_set.
  - split; [repeat constructor; present | present].
  - split; [repeat constructor; present | present].
  - intros t. rewrite !list_elem_of_In. vm_compute. tauto.
Defined.

Lemma filter_length_mono {A} (P Q : A -> Prop) `{forall x, Decision (P x)}
      `{forall x, Decision (Q x)} (l : list A) :
  (forall x, P x -> Q x) -> (length (filter P l) <= length (filter Q l))%nat.
Proof.
  intros HPQ. induction l as [|x l IH]; [reflexivity|].
  rewrite !filter_cons. destruct (decide (P x)) as [Hx|Hx].
  - rewrite decide_True by auto. simpl. lia.
  - destruct (decide (Q x)); simpl; lia.
Qed.

(** X12. More open tickets never lower a status: when every open ticket
    of one OpenInvoice file is open in another, a row that is "Ready to
    Flip" with the first is so with the second, and a row that is "Not
    Ready" with the second is so with the first. *)
Theorem runApproved_monotone (axonRows oiRows oiRows' : list row) (w : page) :
  approvedInputOk axonRows oiRows -> approvedInputOk axonRows oiRows' ->
  (forall t, t ∈ openTickets oiRows -> t ∈ openTickets oiRows') ->
  exists summary out summary' out',
    runApproved axonRows oiRows w = (inr tt, finished w (approvedWorkbook summary out))
    /\ runApproved axonRows oiRows' w = (inr tt, finished w (approvedWorkbook summary' out'))
    /\ Forall2 (fun o o' =>
         (Status o = "Ready to Flip" -> Status o' = "Ready to Flip")
         /\ (Status o' = "Not Ready" -> Status o = "Not Ready")) out out'.
Proof.
  intros Hok Hok' Hsub. eexists _, _, _, _.
  split; [apply (runApproved_ok _ _ _ Hok)|].
  split; [apply (runApproved_ok _ _ _ Hok')|].
  apply Forall2_fmap, Forall_Forall2_diag, Forall_forall. intros r _.
  unfold compose. rewrite !approvedRow_status. unfold rowTotal, rowMatched.
  pose proof (filter_length_mono (fun t => t ∈ openTickets oiRows)
                (fun t => t ∈ openTickets oiRows') (ticketTokens (get r "Tickets")) Hsub) as Hm.
  pose proof (length_filter (fun t => t ∈ openTickets oiRows')
                (ticketTokens (get r "Tickets"))) as Hle.
  split.
  - rewrite !statusDecision_ready. lia.
  - rewrite !statusDecision_notReady by lia. lia.
Qed.

Lemma runApproved_monotone_witness :
  exists summary out summary' out',
    runApproved [axonRow "A-1" "T1,T2" "Acme"] [oiRow "T1"] page0
    = (inr tt, finished page0 (approvedWorkbook summary out))
    /\ runApproved [axonRow "A-1" "T1,T2" "Acme"] [oiRow "T2"; oiRow "T1"] page0
       = (inr tt, finished page0 (approvedWorkbook summary' out'))
    /\ Forall2 (fun o o' =>
         (Status o = "Ready to Flip" -> Status o' = "Ready to Flip")
         /\ (Status o' = "Not Ready" -> Status o = "Not Ready")) out out'.
Proof.
  apply runApproved_monotone.
  - split; [repeat constructor; present | present].
  - split; [repeat constructor; present | present].
  - intros t. rewrite !list_elem_of_In. vm_compute. tauto.
Defined.




(** ** More on the Remittance tool *)








Example runRemit_missing_ex :
  runRemit [] [] page0 = (inl "AXON missing column: Invoice#", reading page0)
  /\ runRemit [axonRow "100" "T1" "Acme"] [{[ "Net Amount" := VString "5" ]}] page0
     = (inl "Remittance missing column: Reference (or Reference/Text)", reading page0)
  /\ runRemit [axonRow "100" "T1" "Acme"] [{[ "Reference/Text" := VString "100" ]}] page0
     = (inl "Remittance missing column: Net Amount", reading page0)
  /\ runRemit [axonRow "100" "T1" "Acme"] [] page0
     = (inl "Remittance missing column: Reference (or Reference/Text)", reading page0).
Proof. vm_compute. repeat split. Qed.

Lemma pushed_buckets (m : gmap string string) (r : row) :
  exists o, pushed m r = [o]
    /\ NetAmount o = VNumber (parseNetAmount (get r "Net Amount"))
    /\ PioneerNaturalResources o
       = (if bool_decide (Customer o = PIONEER) then NetAmount o else VString "")
    /\ XTO_ o = (if bool_decide (Customer o = XTO) then NetAmount o else VString "").
Proof. eexists. repeat split. Qed.

(** X15. In every output row of [runRemit] a bucket column holds either
    the row's Net Amount or the empty string: PioneerNaturalResources
    holds it exactly when the Customer is "Pioneer Natural Resources", XTO
    exactly when the Customer is "XTO Energy". No row fills both, and a
    row whose Customer is "NOT FOUND IN AXON" fills neither. *)
Theorem runRemit_buckets (axonRows remRows : list row) (w : page) :
  remitInputOk axonRows remRows ->
  exists rows total notFound,
    runRemit axonRows remRows w
    = (inr tt, finished w (remitWorkbook (rows ++ [total]) notFound))
    /\ Forall (fun o =>
         (Customer o = PIONEER /\ PioneerNaturalResources o = NetAmount o
          \/ Customer o <> PIONEER /\ PioneerNaturalResources o = VString "")
         /\ (Customer o = XTO /\ XTO_ o = NetAmount o
             \/ Customer o <> XTO /\ XTO_ o = VString "")
         /\ (PioneerNaturalResources o = VString "" \/ XTO_ o = VString "")
         /\ (Customer o = "NOT FOUND IN AXON" ->
             PioneerNaturalResources o = VString "" /\ XTO_ o = VString "")) rows.
Proof.
  intros Hok. eexists _, _, _. split; [apply (runRemit_ok _ _ _ Hok)|].
  rewrite remit_out. cbn [out app].
  apply Forall_forall. intros o Ho.
  apply list_elem_of_In, in_flat_map in Ho as (r & _ & Hor).
  destruct (pushed_buckets (buildInvToCustomer axonRows) r) as (o' & Ho' & _ & Hp & Hx).
  rewrite Ho' in Hor. destruct Hor as [<-|[]].
  rewrite Hp, Hx. unfold PIONEER, XTO.
  repeat case_bool_decide; repeat split; auto; try congruence.
  all: intros E; rewrite E in *; discriminate.
Qed.

Lemma runRemit_buckets_witness :
  exists rows total notFound,
    runRemit [axonRow "100" "T1" "XTO Energy"] [remittanceRow "100" "5"; remittanceRow "7" "1"]
             page0
    = (inr tt, finished page0 (remitWorkbook (rows ++ [total]) notFound))
    /\ Forall (fun o =>
         (Customer o = PIONEER /\ PioneerNaturalResources o = NetAmount o
          \/ Customer o <> PIONEER /\ PioneerNaturalResources o = VString "")
         /\ (Customer o = XTO /\ XTO_ o = NetAmount o
             \/ Customer o <> XTO /\ XTO_ o = VString "")
         /\ (PioneerNaturalResources o = VString "" \/ XTO_ o = VString "")
         /\ (Customer o = "NOT FOUND IN AXON" ->
             PioneerNaturalResources o = VString "" /\ XTO_ o = VString "")) rows.
Proof.
  apply (runRemit_buckets [axonRow "100" "T1" "XTO Energy"]
           [remittanceRow "100" "5"; remittanceRow "7" "1"] page0).
  split; [repeat constructor; present | split; [left; present | present]].
Defined.

Lemma parseNetAmount_not_nan (cell : value) : parseNetAmount cell <> NaN.
Proof.
  unfold parseNetAmount. cbn [ToNumber ToBoolean].
  now destruct (StringToNumber _) as [z|i| |s m e].
Qed.

(** X16. The Net Amount of an output row of [runRemit] is always a
    number, never NaN and never [-0]; the two totals of the TOTAL row are
    numbers and never [-0]. *)
Theorem runRemit_amounts (axonRows remRows : list row) (w : page) :
  remitInputOk axonRows remRows ->
  exists rows total notFound,
    runRemit axonRows remRows w
    = (inr tt, finished w (remitWorkbook (rows ++ [total]) notFound))
    /\ Forall (fun o => exists a, NetAmount o = VNumber a /\ a <> NaN /\ a <> S754_zero true) rows
    /\ (exists p x, PioneerNaturalResources total = VNumber p /\ XTO_ total = VNumber x
                    /\ p <> S754_zero true /\ x <> S754_zero true).
Proof.
  intros Hok. eexists _, _, _. split; [apply (runRemit_ok _ _ _ Hok)|]. split.
  - rewrite remit_out. cbn [out app].
    apply Forall_forall. intros o Ho.
    apply list_elem_of_In, in_flat_map in Ho as (r & _ & Hor).
    destruct (pushed_buckets (buildInvToCustomer axonRows) r) as (o' & Ho' & Hn & _).
    rewrite Ho' in Hor. destruct Hor as [<-|[]].
    exists (parseNetAmount (get r "Net Amount")). split; [exact Hn|]. split.
    + apply parseNetAmount_not_nan.
    + apply parseNetAmount_summable.
  - pose proof (remit_totals (buildInvToCustomer axonRows) remRows _ initial_totals)
      as (_ & _ & [Hp _] & [Hx _]).
    eexists _, _. cbn [PioneerNaturalResources XTO_]. repeat split; assumption.
Qed.

Lemma runRemit_amounts_witness :
  exists rows total notFound,
    runRemit [axonRow "100" "T1" "XTO Energy"] [remittanceRow "100" "-0"; remittanceRow "7" "n/a"]
             page0
    = (inr tt, finished page0 (remitWorkbook (rows ++ [total]) notFound))
    /\ Forall (fun o => exists a, NetAmount o = VNumber a /\ a <> NaN /\ a <> S754_zero true) rows
    /\ (exists p x, PioneerNaturalResources total = VNumber p /\ XTO_ total = VNumber x
                    /\ p <> S754_zero true /\ x <> S754_zero true).
Proof.
  apply (runRemit_amounts [axonRow "100" "T1" "XTO Energy"]
           [remittanceRow "100" "-0"; remittanceRow "7" "n/a"] page0).
  split; [repeat constructor; present | split; [left; present | present]].
Defined.

Lemma lastName_from (axonRows : list row) (k name : string) (acc : option string) :
  foldl (fun acc r => if decide (normalizeInvoice (get r "Invoice#") = k)
                      then Some (trim (ToString (get r "Name"))) else acc)
        acc axonRows = Some name ->
  acc = Some name
  \/ exists r, r ∈ axonRows /\ normalizeInvoice (get r "Invoice#") = k
               /\ name = trim (ToString (get r "Name")).
Proof.
  revert acc. induction axonRows as [|r rows IH]; intros acc H; [now left|].
  cbn [foldl] in H. apply IH in H as [H|(r' & Hr' & Hk & Hn)].
  - case_decide as E; [|now left]. injection H as <-. right. exists r.
    split; [apply elem_of_cons; now left | now split].
  - right. exists r'. split; [apply elem_of_cons; now right | now split].
Qed.

(** X17. The Customer of an output row of [runRemit] is never a name of
    its own making: it is "NOT FOUND IN AXON", or the trimmed Name of an
    AXON row whose normalised Invoice# is the Reference of the output
    row. *)
Theorem runRemit_customer_origin (axonRows remRows : list row) (w : page) :
  remitInputOk axonRows remRows ->
  exists rows total notFound,
    runRemit axonRows remRows w
    = (inr tt, finished w (remitWorkbook (rows ++ [total]) notFound))
    /\ Forall (fun o =>
         Customer o = "NOT FOUND IN AXON"
         \/ exists r, r ∈ axonRows /\ normalizeInvoice (get r "Invoice#") = Reference o
                      /\ Customer o = trim (ToString (get r "Name"))) rows.
Proof.
  intros Hok. eexists _, _, _. split; [apply (runRemit_ok _ _ _ Hok)|].
  rewrite remit_out. cbn [out app].
  apply Forall_forall. intros o Ho.
  apply list_elem_of_In, in_flat_map in Ho as (r & _ & Hor).
  destruct (pushed_one (buildInvToCustomer axonRows) r) as (o' & Ho' & _ & _ & Hc).
  rewrite Ho' in Hor. destruct Hor as [<-|[]].
  rewrite Hc, lookupCustomer_cases.
  destruct (buildInvToCustomer axonRows !! Reference o') as [name|] eqn:E; [|now left].
  case_decide; [now left|]. right.
  unfold buildInvToCustomer, newMap in E. rewrite newMap_lookup, lookup_empty in E.
  destruct (decide (Reference o' = "")) as [E0|E0].
  - rewrite E0, no_empty_key in E. discriminate E.
  - rewrite lastName_filtered in E by exact E0.
    apply lastName_from in E as [E|(r' & Hr' & Hk & Hn)]; [discriminate E|].
    now exists r'.
Qed.

Lemma runRemit_customer_origin_witness :
  exists rows total notFound,
    runRemit [axonRow "100" "T1" " Acme "] [remittanceRow "100" "5"; remittanceRow "7" "1"] page0
    = (inr tt, finished page0 (remitWorkbook (rows ++ [total]) notFound))
    /\ Forall (fun o =>
         Customer o = "NOT FOUND IN AXON"
         \/ exists r, r ∈ [axonRow "100" "T1" " Acme "]
                      /\ normalizeInvoice (get r "Invoice#") = Reference o
                      /\ Customer o = trim (ToString (get r "Name"))) rows.
Proof.
  apply (runRemit_customer_origin [axonRow "100" "T1" " Acme "]
           [remittanceRow "100" "5"; remittanceRow "7" "1"] page0).
  split; [repeat constructor; present | split; [left; present | present]].
Defined.

(** ** Amounts written as integers *)

Lemma digitOf_digit (c : ascii) :
  isDigit c = true -> digitOf 10 c = Some (Z.of_N (N_of_ascii c) - 48).
Proof.
  unfold isDigit, digitOf. intros [H1 H2]%andb_prop.
  apply N.leb_le in H1, H2.
  replace (48 <=? Z.of_N (N_of_ascii c)) with true by (symmetry; apply Z.leb_le; lia).
  replace (Z.of_N (N_of_ascii c) <=? 57) with true by (symmetry; apply Z.leb_le; lia).
  cbn [andb]. replace (_ <? 10) with true by (symmetry; apply Z.ltb_lt; lia). reflexivity.
Qed.

Lemma isDigit_not_whiteSpace (c : ascii) : isDigit c = true -> isWhiteSpace c = false.
Proof.
  unfold isDigit, isWhiteSpace. intros [H1 H2]%andb_prop. apply N.leb_le in H1, H2.
  apply bool_decide_eq_false. intros H.
  repeat (apply elem_of_cons in H as [H|H]; [lia|]). now apply elem_of_nil in H.
Qed.

Lemma digitString_plain (d : string) : digitString d = true -> hasWhiteSpace d = false.
Proof.
  induction d as [|c d IH]; [reflexivity|].
  cbn [digitString hasWhiteSpace]. intros [Hc Hd]%andb_prop.
  now rewrite (isDigit_not_whiteSpace c Hc), IH.
Qed.

Lemma spanDigits_digitString (d : string) :
  digitString d = true ->
  exists ds, spanDigits 10 d = (ds, "")
    /\ (d <> "" -> ds <> [])
    /\ forall acc, foldl (fun a x => a * 10 + x) acc ds = decimalValueFrom acc d.
Proof.
  induction d as [|c d IH]; [now exists []|].
  cbn [digitString]. intros [Hc Hd]%andb_prop.
  destruct (IH Hd) as (ds & Hs & _ & Hv).
  exists ((Z.of_N (N_of_ascii c) - 48) :: ds).
  cbn [spanDigits]. rewrite (digitOf_digit c Hc), Hs.
  split; [reflexivity|]. split; [discriminate|]. intros acc. cbn [foldl decimalValueFrom]. apply Hv.
Qed.

Lemma decimalValueFrom_nonneg (d : string) (acc : Z) :
  digitString d = true -> 0 <= acc -> 0 <= decimalValueFrom acc d.
Proof.
  revert acc. induction d as [|c d IH]; intros acc Hd Hacc; [exact Hacc|].
  cbn [digitString] in Hd. apply andb_prop in Hd as [Hc Hd].
  cbn [decimalValueFrom]. apply IH; [exact Hd|].
  unfold isDigit in Hc. apply andb_prop in Hc as [H1 _]. apply N.leb_le in H1. lia.
Qed.

Lemma radixPrefix_digitString (d : string) : digitString d = true -> radixPrefix d = None.
Proof.
  destruct d as [|c0 [|c d]]; [reflexivity| |].
  - intros _. now destruct c0 as [[] [] [] [] [] [] [] []].
  - cbn [digitString]. intros [_ [Hc _]%andb_prop]%andb_prop.
    assert (forall a b : ascii, isDigit a = false -> isDigit b = false ->
                                bool_decide (c = a \/ c = b) = false) as Hno.
    { intros a b Ha Hb. apply bool_decide_eq_false. intros [E|E]; subst; congruence. }
    destruct c0 as [[] [] [] [] [] [] [] []]; try reflexivity.
    unfold radixPrefix.
    rewrite (Hno "x"%char "X"%char), (Hno "o"%char "O"%char), (Hno "b"%char "B"%char)
      by reflexivity.
    reflexivity.
Qed.

Lemma digitString_head (c : ascii) (d : string) :
  digitString (String c d) = true ->
  Ascii.eqb c "+" = false /\ Ascii.eqb c "-" = false
  /\ String.eqb (String c d) "Infinity" = false.
Proof.
  cbn [digitString]. intros [Hc _]%andb_prop.
  repeat split.
  - destruct (Ascii.eqb_spec c "+") as [->|]; [discriminate Hc | reflexivity].
  - destruct (Ascii.eqb_spec c "-") as [->|]; [discriminate Hc | reflexivity].
  - destruct (String.eqb_spec (String c d) "Infinity") as [E|]; [|reflexivity].
    injection E as -> _. discriminate Hc.
Qed.

(** The number a string of digits converts to is the number value of the
    integer it denotes. *)
Lemma StringToNumber_digits (d : string) :
  digitString d = true -> d <> "" -> StringToNumber d = ofZ (decimalValue d).
Proof.
  intros Hd Hne. unfold StringToNumber.
  rewrite (trim_plain d (digitString_plain d Hd)).
  destruct d as [|c d']; [contradiction|].
  rewrite (radixPrefix_digitString _ Hd).
  destruct (digitString_head c d' Hd) as (-> & -> & Hinf).
  unfold parseUnsignedDecimal. rewrite Hinf.
  destruct (spanDigits_digitString _ Hd) as (ds & -> & Hds & Hv).
  specialize (Hds Hne). cbv iota beta. cbn [length]. rewrite app_nil_r.
  destruct ds as [|x ds]; [contradiction|].
  cbn [parseExponent]. unfold digitsValue. rewrite Hv.
  fold (decimalValue (String c d')).
  pose proof (decimalValueFrom_nonneg (String c d') 0 Hd ltac:(lia)) as Hpos.
  fold (decimalValue (String c d')) in Hpos.
  unfold roundDecimal, ofZ. destruct (decimalValue (String c d')) as [|p|p]; try lia.
  - reflexivity.
  - cbn [Z.of_nat Z.sub Z.opp Z.leb Z.compare]. now rewrite Z.pow_0_r, Z.mul_1_r.
Qed.

Lemma binary_round_aux_not_nan (sx : bool) (m : positive) (e : Z) (l : location) :
  emin prec emax <= e -> binary_round_aux prec emax sx (Z.pos m) e l <> S754_nan.
Proof.
  intros He. unfold binary_round_aux.
  pose proof (shr_fexp_positive m e l He) as H1.
  pose proof (shr_exponent (shr_record_of_loc (Z.pos m) l) e
                (fexp prec emax (Zdigits2 (Z.pos m) + e) - e)) as E1.
  fold (shr_fexp prec emax (Z.pos m) e l) in E1.
  destruct (shr_fexp prec emax (Z.pos m) e l) as [mrs' e']. cbn [fst snd] in H1, E1.
  pose proof (round_nearest_even_ge (shr_m mrs') (loc_of_shr_record mrs')) as H2.
  destruct (round_nearest_even (shr_m mrs') (loc_of_shr_record mrs')) as [|m1|m1]; try lia.
  pose proof (shr_fexp_positive m1 e' loc_Exact ltac:(lia)) as H3.
  destruct (shr_fexp prec emax (Z.pos m1) e' loc_Exact) as [mrs'' e'']. cbn [fst] in H3.
  destruct (shr_m mrs''); try lia.
  now destruct (e'' <=? emax - prec).
Qed.

(** The number value of a positive integer is neither a zero nor NaN. *)
Lemma ofZ_truthy (p : positive) : ToBoolean (VNumber (ofZ (Z.pos p))) = true.
Proof.
  unfold ofZ, binary_normalize.
  assert (emin prec emax <= 0) as H0 by (rewrite emin_value; lia).
  pose proof (binary_round_nonzero false p 0) as Hz.
  assert (binary_round prec emax false p 0 <> S754_nan) as Hn.
  { unfold binary_round.
    pose proof (shl_align_exponent p 0 (fexp prec emax (Z.pos (digits2_pos p) + 0))) as Ha.
    pose proof (fexp_ge_emin (Z.pos (digits2_pos p) + 0)) as Hf.
    destruct (shl_align p 0 _) as [mz ez]. simpl in Ha.
    apply binary_round_aux_not_nan. rewrite emin_value in *. lia. }
  destruct (binary_round prec emax false p 0) as [s| | |]; try reflexivity.
  - now specialize (Hz s H0).
  - contradiction.
Qed.

(** X18. A Net Amount cell written as an integer, with or without
    commas, is parsed to the number value of that integer: when the cell,
    its commas removed, is a nonempty string of decimal digits, the amount
    is the binary64 value of the integer the digits denote. *)
Theorem parseNetAmount_integer (s d : string) :
  digitString d = true -> d <> "" -> replaceAll s "," "" = d ->
  parseNetAmount (VString s) = ofZ (decimalValue d).
Proof.
  intros Hd Hne Hs. unfold parseNetAmount. cbn [ToString ToNumber].
  rewrite Hs, (StringToNumber_digits d Hd Hne).
  pose proof (decimalValueFrom_nonneg d 0 Hd ltac:(lia)) as Hpos.
  fold (decimalValue d) in Hpos.
  destruct (decimalValue d) as [|p|p]; [reflexivity| |lia].
  now rewrite ofZ_truthy.
Qed.

Lemma parseNetAmount_integer_witness : parseNetAmount (VString "1,234,567") = ofZ 1234567.
Proof.
  apply (parseNetAmount_integer "1,234,567" "1234567"); [reflexivity | discriminate | reflexivity].
Defined.

(** ** The click handlers *)



Example btn_ex :
  btnApproved_onclick None (Some [oiRow "T1"]) page0
  = {| line := Some (ErrorText "Please select both files."); saved := [] |}
  /\ btnApproved_onclick (Some [delete "Name" (axonRow "A-1" "T1" "Acme")]) (Some [oiRow "T1"]) page0
     = {| line := Some (ErrorText "AXON missing column: Name"); saved := [] |}
  /\ btnRemit_onclick (Some [axonRow "100" "T1" "Acme"]) (Some []) page0
     = {| line := Some (ErrorText "Remittance missing column: Reference (or Reference/Text)");
          saved := [] |}.
Proof. vm_compute. repeat split. Qed.

(** X21. After any clicks on the two tabs, the last of them decides what
    is shown: exactly one tab is active, its panel is displayed and the
    other panel is hidden, whatever was shown before. *)
Theorem tabs_after_clicks (t : tabs) (clicks : list tabClick) (c : tabClick) :
  let t' := foldl click t (clicks ++ [c]) in
  tabApprovedActive t' = negb (tabRemitActive t')
  /\ (tabApprovedActive t' = true <-> c = ClickApproved)
  /\ panelApprovedDisplay t' = (if tabApprovedActive t' then "" else "none")
  /\ panelRemitDisplay t' = (if tabRemitActive t' then "" else "none").
Proof.
  cbv zeta. rewrite foldl_app. cbn [foldl].
  destruct c; cbn; repeat split; intros; congruence.
Qed.

Lemma columnSum_filter_snoc (name : string) (rows : list remitRow) (o : remitRow) :
  columnSum NetAmount (filter (fun o => Customer o = name) (rows ++ [o]))
  = if bool_decide (Customer o = name)
    then add (columnSum NetAmount (filter (fun o => Customer o = name) rows))
             (ToNumber (NetAmount o))
    else columnSum NetAmount (filter (fun o => Customer o = name) rows).
Proof.
  rewrite filter_app, filter_cons, filter_nil.
  case_bool_decide as H.
  - rewrite decide_True by exact H. apply columnSum_snoc.
  - rewrite decide_False by exact H. now rewrite app_nil_r.
Qed.

Lemma remit_totals_by_customer (m : gmap string string) (rows : list row) (st : remitState) :
  pioneerTotal st = columnSum NetAmount (filter (fun o => Customer o = PIONEER) (out st)) ->
  xtoTotal st = columnSum NetAmount (filter (fun o => Customer o = XTO) (out st)) ->
  let st' := foldl (remitStep m) st rows in
  pioneerTotal st' = columnSum NetAmount (filter (fun o => Customer o = PIONEER) (out st'))
  /\ xtoTotal st' = columnSum NetAmount (filter (fun o => Customer o = XTO) (out st')).
Proof.
  revert st. induction rows as [|r rows IH]; intros st Hp Hx; [now split|].
  cbn [foldl]. apply IH; unfold remitStep; cbn [out pioneerTotal xtoTotal];
    rewrite columnSum_filter_snoc; cbn [Customer NetAmount ToNumber];
    case_bool_decide; congruence.
Qed.

(** X22. Each total of the TOTAL row is the sum, from the first row to
    the last, of the Net Amounts of the output rows of that customer:
    rows of any other customer, and rows not found in AXON, add nothing
    to it. *)
Theorem runRemit_totals_by_customer (axonRows remRows : list row) (w : page) :
  remitInputOk axonRows remRows ->
  exists rows total notFound,
    runRemit axonRows remRows w
    = (inr tt, finished w (remitWorkbook (rows ++ [total]) notFound))
    /\ PioneerNaturalResources total
       = VNumber (columnSum NetAmount (filter (fun o => Customer o = PIONEER) rows))
    /\ XTO_ total
       = VNumber (columnSum NetAmount (filter (fun o => Customer o = XTO) rows)).
Proof.
  intros Hok. eexists _, _, _. split; [apply (runRemit_ok _ _ _ Hok)|].
  cbn [PioneerNaturalResources XTO_].
  destruct (remit_totals_by_customer (buildInvToCustomer axonRows) remRows
              {| out := []; pioneerTotal := posZero; xtoTotal := posZero |}
              eq_refl eq_refl) as [Hp Hx].
  now rewrite Hp, Hx.
Qed.

Lemma runRemit_totals_by_customer_witness :
  exists rows total notFound,
    runRemit [axonRow "100" "T1" "XTO Energy"; axonRow "200" "T2" "Acme"]
             [remittanceRow "100" "5"; remittanceRow "200" "9"; remittanceRow "100" "2.5"] page0
    = (inr tt, finished page0 (remitWorkbook (rows ++ [total]) notFound))
    /\ PioneerNaturalResources total
       = VNumber (columnSum NetAmount (filter (fun o => Customer o = PIONEER) rows))
    /\ XTO_ total
       = VNumber (columnSum NetAmount (filter (fun o => Customer o = XTO) rows)).
Proof.
  apply (runRemit_totals_by_customer
           [axonRow "100" "T1" "XTO Energy"; axonRow "200" "T2" "Acme"]
           [remittanceRow "100" "5"; remittanceRow "200" "9"; remittanceRow "100" "2.5"] page0).
  split; [repeat constructor; present | split; [left; present | present]].
Defined.
